(** * Settlement and messaging core of the marketplace client

    A shallow embedding of the settlement saga ([confirmPayment]), of the
    order chat ([ChatModal]) and of the direct chat ([DirectChatModal]) of
    [src/App.tsx], over the records of [src/types.ts].

    Asynchronous handlers are written in a small free monad: a handler is a
    tree of service calls it awaits, of React state updates and of
    notifications it emits.  The tree is run either to completion against a
    world that answers the calls, or up to its first [await], which is where
    other callbacks may interleave. *)

From Stdlib Require Import ZArith String List Bool Lia.
From stdpp Require Import base option list strings gmap pretty.
Import ListNotations.

Local Open Scope Z_scope.
Local Open Scope string_scope.

(** ** Records of [types.ts] *)

Inductive UserRole := admin | premium | buyer_role.
Inductive UserStatus := active | suspended.

Record User := {
  user_id : string;
  user_email : string;
  user_name : string;
  user_role : UserRole;
  user_status : UserStatus;
  user_avatarUrl : option string;
  user_createdAt : string
}.

Inductive PixKeyType := CPF | CNPJ | EMAIL | PHONE | RANDOM.
Inductive DeliveryMethod := shipping | pickup.

Record ShippingAddress := {
  street : string;
  number : string;
  complement : option string;
  neighborhood : string;
  addr_city : string;
  addr_state : string;
  zipCode : string
}.

(** [price] is a JavaScript number in the source; it is only ever passed
    along, and is taken here as a fixed-point amount.  [quantity] is the
    integer stock count, and nothing in its type keeps it from being
    negative. *)
Record Product := {
  product_id : string;
  title : string;
  description : string;
  price : Z;
  imageUrl : string;
  imagePath : option string;
  city : string;
  pixKey : string;
  pixKeyType : PixKeyType;
  quantity : Z;
  deliveryMethod : DeliveryMethod;
  sellerId : string;
  sellerName : string;
  sellerAvatar : option string;
  product_createdAt : string
}.

Inductive OrderStatus := paid | delivered.

Record Order := {
  order_id : string;
  buyerId : string;
  buyerName : option string;
  order_sellerId : string;
  productId : string;
  productTitle : string;
  order_price : Z;
  shippingAddress : option ShippingAddress;
  order_status : OrderStatus;
  order_createdAt : string
}.

Record ChatMessage := {
  cm_id : string;
  cm_orderId : string;
  cm_senderId : string;
  cm_content : string;
  cm_createdAt : string
}.

Record DirectMessage := {
  dm_id : string;
  dm_senderId : string;
  dm_receiverId : string;
  dm_content : string;
  dm_createdAt : string
}.

Record SupabaseResponse (T : Type) := {
  data : option T;
  error : option string
}.
Arguments data {T} _.
Arguments error {T} _.

#[global] Instance OrderStatus_eq_dec : EqDecision OrderStatus.
Proof. solve_decision. Defined.

(** ** Shapes used by [App.tsx] from the service modules

    The argument of [orders.create] in [confirmPayment], the [PaymentData]
    kept in the page state, and the answer of [getPaymentStatus] as the page
    reads it ([statusRes.success], [statusRes.data?.status]). *)

Record NewOrder := {
  no_buyerId : string;
  no_sellerId : string;
  no_productId : string;
  no_productTitle : string;
  no_price : Z;
  no_status : OrderStatus
}.

Record PaymentData := {
  pd_id : string;
  qrcodeUrl : string;
  copyPaste : option string
}.

Record StatusData := { status : string }.

Record StatusRes := {
  success : bool;
  status_data : option StatusData
}.

(** A JavaScript error value, as far as the handlers look at it. *)
Record JsError := { message : string }.

(** How a promise settles, and how an async function body completes. *)
Inductive Settled (A : Type) : Type :=
| Fulfilled (a : A)
| Rejected (e : JsError).
Arguments Fulfilled {A} _.
Arguments Rejected {A} _.

(** ** The calls the handlers make *)

(** Asynchronous calls into [supabaseService] and [eyoService]; the index is
    the type of the value the promise resolves to.  Where the handler drops
    the resolved value the index is [unit]. *)
Inductive Service : Type -> Type :=
| GetPaymentStatus (id : string) : Service StatusRes
| CreateWithdraw (amount : Z) (key : string) (keyType : PixKeyType) : Service unit
| OrdersCreate (o : NewOrder) : Service (SupabaseResponse Order)
| OrdersMarkDelivered (orderId : string) : Service unit
| ProductsUpdateStock (id : string) (newQuantity : Z) : Service unit
| ChatSendMessage (orderId senderId content : string) : Service unit
| DirectChatSendMessage (senderId receiverId content : string) : Service unit.

(** Synchronous questions put to the browser. *)
Inductive Browser : Type -> Type :=
| WindowConfirm (text : string) : Browser bool
| MathRandomToString : Browser string
| DateNowISO : Browser string.

(** What a handler emits without waiting for an answer. *)
Inductive Notice :=
| Alert (text : string)
| Navigate (path : string)
| ConsoleError (e : JsError)
| PreventDefault
| OnClose
| OnMessageSent.

(** One entry of the log of a run. *)
Inductive Event :=
| Called {X : Type} (c : Service X)
| Asked {X : Type} (q : Browser X)
| Noticed (n : Notice).

(** ** Handlers as trees *)

Section Handlers.
(** The React state of the component the handler belongs to. *)
Context {S : Type}.

Inductive Prog (R : Type) : Type :=
| Done (r : R)
| Await {X : Type} (c : Service X) (k : Settled X -> Prog R)
| Ask {X : Type} (q : Browser X) (k : X -> Prog R)
| SetState (f : S -> S) (k : Prog R)
| Notify (n : Notice) (k : Prog R).
Arguments Done {R} _.
Arguments Await {R X} _ _.
Arguments Ask {R X} _ _.
Arguments SetState {R} _ _.
Arguments Notify {R} _ _.

Fixpoint prog_bind {A B : Type} (p : Prog A) (f : A -> Prog B) : Prog B :=
  match p with
  | Done a => f a
  | Await c k => Await c (fun x => prog_bind (k x) f)
  | Ask q k => Ask q (fun x => prog_bind (k x) f)
  | SetState g k => SetState g (prog_bind k f)
  | Notify n k => Notify n (prog_bind k f)
  end.

(** An async function body: it completes normally or by a throw. *)
Definition Js (A : Type) : Type := Prog (Settled A).

Definition ret {A} (a : A) : Js A := Done (Fulfilled a).
Definition throw {A} (e : JsError) : Js A := Done (Rejected e).

Definition bind {A B} (m : Js A) (f : A -> Js B) : Js B :=
  prog_bind m (fun s => match s with
                        | Fulfilled a => f a
                        | Rejected e => Done (Rejected e)
                        end).

(** [await c]: a rejected promise is a throw at the [await]. *)
Definition await {X} (c : Service X) : Js X := Await c Done.
Definition ask {X} (q : Browser X) : Js X := Ask q (fun x => ret x).
Definition setState (f : S -> S) : Js unit := SetState f (ret tt).
Definition notify (n : Notice) : Js unit := Notify n (ret tt).

(** [try { m } catch (e) { h e }] *)
Definition try_catch {A} (m : Js A) (h : JsError -> Js A) : Js A :=
  prog_bind m (fun s => match s with
                        | Fulfilled a => ret a
                        | Rejected e => h e
                        end).

(** [try { m } finally { fin }]: [fin] runs on both exits; a throw of
    [fin] itself replaces the completion of [m]. *)
Definition try_finally {A} (m : Js A) (fin : Js unit) : Js A :=
  prog_bind m (fun s => prog_bind fin (fun t => match t with
                                                | Fulfilled _ => Done s
                                                | Rejected e => Done (Rejected e)
                                                end)).

(** *** Running a handler *)

Section Run.
(** A world that answers the calls. *)
Context {W : Type}.
Variable serve : forall X, Service X -> W -> Settled X * W.
Variable browse : forall X, Browser X -> W -> X * W.

Record Outcome (R : Type) := {
  result : R;
  state_after : S;
  world_after : W;
  trace : list Event
}.
Arguments result {R} _.
Arguments state_after {R} _.
Arguments world_after {R} _.
Arguments trace {R} _.

Definition logged {R} (e : Event) (o : Outcome R) : Outcome R :=
  {| result := result o; state_after := state_after o;
     world_after := world_after o; trace := e :: trace o |}.

(** Every awaited call is answered at once: no other callback runs in
    between. *)
Fixpoint run {R} (p : Prog R) (s : S) (w : W) : Outcome R :=
  match p with
  | Done r => {| result := r; state_after := s; world_after := w; trace := [] |}
  | Await c k =>
      let a := serve _ c w in
      logged (Called c) (run (k (fst a)) s (snd a))
  | Ask q k =>
      let a := browse _ q w in
      logged (Asked q) (run (k (fst a)) s (snd a))
  | SetState f k => run k (f s) w
  | Notify n k => logged (Noticed n) (run k s w)
  end.
End Run.

(** *** The synchronous prefix of a handler

    What happens between the call of an async handler and its first
    [await]: state updates and notifications are applied, browser
    questions are answered by [answers], and the handler is left either
    finished or parked on a service call with its continuation. *)

Inductive Parked (R : Type) : Type :=
| Finished (r : R)
| Waiting {X : Type} (c : Service X) (k : Settled X -> Prog R).
Arguments Finished {R} _.
Arguments Waiting {R X} _ _.

Fixpoint sync {R} (answers : forall X, Browser X -> X) (p : Prog R) (s : S)
  : S * list Notice * Parked R :=
  match p with
  | Done r => (s, [], Finished r)
  | Await c k => (s, [], Waiting c k)
  | Ask q k => sync answers (k (answers _ q)) s
  | SetState f k => sync answers k (f s)
  | Notify n k =>
      let '(s', ns, pk) := sync answers k s in (s', n :: ns, pk)
  end.
End Handlers.

Arguments Prog : clear implicits.
Arguments Js : clear implicits.
Arguments Parked : clear implicits.
Arguments Outcome : clear implicits.
Arguments Done {S R} _.
Arguments Await {S R X} _ _.
Arguments Ask {S R X} _ _.
Arguments SetState {S R} _ _.
Arguments Notify {S R} _ _.
Arguments Finished {S R} _.
Arguments Waiting {S R X} _ _.
Arguments result {S W R} _.
Arguments state_after {S W R} _.
Arguments world_after {S W R} _.
Arguments trace {S W R} _.

#[global] Instance Js_ret {S} : MRet (Js S) := fun _ a => ret a.
#[global] Instance Js_bind {S} : MBind (Js S) := fun _ _ f m => bind m f.

(** ** JavaScript truthiness, where the handlers rely on it *)

(** [error] of a response is [string | null]: null and the empty string are
    falsy. *)
Definition truthy (e : option string) : bool :=
  match e with
  | Some s => negb (String.eqb s "")
  | None => false
  end.

(** [error || fallback] *)
Definition or_else (e : option string) (fallback : string) : string :=
  match e with
  | Some s => if String.eqb s "" then fallback else s
  | None => fallback
  end.

(** [statusRes.data?.status === lit] *)
Definition status_is (r : StatusRes) (lit : string) : bool :=
  match status_data r with
  | Some d => String.eqb (status d) lit
  | None => false
  end.

(** ["..." + statusRes.data?.status]: an absent status prints as
    [undefined]. *)
Definition status_text (r : StatusRes) : string :=
  match status_data r with
  | Some d => status d
  | None => "undefined"
  end.

(** ** [ProductDetails]: the settlement saga *)

Record ProductDetailsState := {
  product : option Product;
  loading : bool;
  showPayment : bool;
  paymentData : option PaymentData;
  verifying : bool;
  directChatUser : option User
}.

Definition setVerifying (b : bool) (st : ProductDetailsState) : ProductDetailsState :=
  {| product := product st; loading := loading st; showPayment := showPayment st;
     paymentData := paymentData st; verifying := b;
     directChatUser := directChatUser st |}.

(** The payload of [orders.create] in [confirmPayment]. *)
Definition order_payload (u : User) (p : Product) : NewOrder :=
  {| no_buyerId := user_id u;
     no_sellerId := sellerId p;
     no_productId := product_id p;
     no_productTitle := title p;
     no_price := price p;
     no_status := paid |}.

(** The "Comprar Agora" button, the only way to a payment intent: it is
    rendered unless the viewer is the seller ([user?.id !== product.sellerId])
    and is disabled when [product.quantity < 1]. *)
Definition canBuy (user : option User) (p : Product) : bool :=
  negb (match user with
        | Some u => String.eqb (user_id u) (sellerId p)
        | None => false
        end)
  && negb (quantity p <? 1)%Z.

Definition is_success_status (r : StatusRes) : bool :=
  success r && (status_is r "COMPLETED" || status_is r "ACTIVE").

Definition confirmPayment (st : ProductDetailsState) (user : option User)
  : Js ProductDetailsState unit :=
  match paymentData st, product st, user with
  | Some pd, Some p, Some u =>
    setState (setVerifying true) ;;
    try_finally
       (try_catch
          (statusRes ← await (GetPaymentStatus (pd_id pd));
           if is_success_status statusRes then
             res ← await (OrdersCreate (order_payload u p));
             (if truthy (error res) || negb (bool_decide (is_Some (data res)))
              then throw {| message := or_else (error res) "Failed to create order" |}
              else ret tt) ;;
             await (ProductsUpdateStock (product_id p) (quantity p - 1)) ;;
             await (CreateWithdraw (price p) (pixKey p) (pixKeyType p)) ;;
             notify (Alert "Pagamento confirmado! Pedido criado.") ;;
             notify (Navigate "/feed")
           else
             notify (Alert ("Pagamento ainda não confirmado. Status: "
                            ++ status_text statusRes)))
          (fun e => notify (Alert ("Erro ao verificar: " ++ message e))))
       (setState (setVerifying false))
  | _, _, _ => ret tt
  end.

(** Which entries of a trace are the saga's three external effects. *)
Definition is_order_create (e : Event) : bool :=
  match e with
  | Called c => match c with OrdersCreate _ => true | _ => false end
  | _ => false
  end.

Definition is_stock_update (e : Event) : bool :=
  match e with
  | Called c => match c with ProductsUpdateStock _ _ => true | _ => false end
  | _ => false
  end.

Definition is_withdraw (e : Event) : bool :=
  match e with
  | Called c => match c with CreateWithdraw _ _ _ => true | _ => false end
  | _ => false
  end.

(** One invocation of [confirmPayment] on the page state [st], in a world
    that answers its calls. *)
Definition confirm {W : Type} (serve : forall X, Service X -> W -> Settled X * W)
    (browse : forall X, Browser X -> W -> X * W)
    (st : ProductDetailsState) (user : option User) (w : W)
  : Outcome ProductDetailsState W (Settled unit) :=
  run serve browse (confirmPayment st user) st w.

(** Whether the creation of the order record failed as [confirmPayment]
    sees it, with the message it then reports: the call was rejected, or it
    answered with an error or without a row. *)
Definition creation_error (a : Settled (SupabaseResponse Order)) : option string :=
  match a with
  | Rejected e => Some (message e)
  | Fulfilled res =>
      if truthy (error res) || negb (bool_decide (is_Some (data res)))
      then Some (or_else (error res) "Failed to create order")
      else None
  end.

(** ** The record store and the payment gateway

    [App.tsx] imports [services/supabase] and [services/eyo] and only calls
    into them; their code is outside the files embedded here.  The theorems
    about the handlers hold for every world that answers these calls.  Where
    a concrete store is needed to run a scenario, the one below is used. *)

Record Withdrawal := {
  w_amount : Z;
  w_key : string;
  w_keyType : PixKeyType
}.

Record Backend := {
  products : gmap string Product;
  orders : gmap string Order;
  messages : list ChatMessage;
  direct_messages : list DirectMessage;
  payments : gmap string string;
  withdrawals : list Withdrawal;
  serial : nat
}.

Definition with_quantity (q : Z) (p : Product) : Product :=
  {| product_id := product_id p; title := title p; description := description p;
     price := price p; imageUrl := imageUrl p; imagePath := imagePath p;
     city := city p; pixKey := pixKey p; pixKeyType := pixKeyType p;
     quantity := q; deliveryMethod := deliveryMethod p; sellerId := sellerId p;
     sellerName := sellerName p; sellerAvatar := sellerAvatar p;
     product_createdAt := product_createdAt p |}.

Definition with_status (s : OrderStatus) (o : Order) : Order :=
  {| order_id := order_id o; buyerId := buyerId o; buyerName := buyerName o;
     order_sellerId := order_sellerId o; productId := productId o;
     productTitle := productTitle o; order_price := order_price o;
     shippingAddress := shippingAddress o; order_status := s;
     order_createdAt := order_createdAt o |}.

(** Modelled from the spec: [getPaymentStatus] of the missing
    [services/eyo], the gateway's "getPaymentStatus(id) → status" of §6: the
    status recorded for the intent, or an unsuccessful answer for an unknown
    intent. *)
Definition getPaymentStatus (id : string) (b : Backend) : StatusRes :=
  match payments b !! id with
  | Some s => {| success := true; status_data := Some {| status := s |} |}
  | None => {| success := false; status_data := None |}
  end.

(** Modelled from the spec: [createWithdraw] of the missing [services/eyo],
    "createWithdraw(amount, payoutKey, keyType)" of §6: the payout is
    recorded. *)
Definition createWithdraw (amount : Z) (key : string) (kt : PixKeyType)
    (b : Backend) : Backend :=
  {| products := products b; orders := orders b; messages := messages b;
     direct_messages := direct_messages b; payments := payments b;
     withdrawals := withdrawals b ++
       [{| w_amount := amount; w_key := key; w_keyType := kt |}];
     serial := serial b |}.

(** Modelled from the spec: [orders.create] of the missing
    [services/supabase], a point insert into the orders table (§6): the row
    gets a fresh id and is returned. *)
Definition orders_create (o : NewOrder) (b : Backend) : Order * Backend :=
  let row := {| order_id := "order-" ++ pretty (serial b);
                buyerId := no_buyerId o; buyerName := None;
                order_sellerId := no_sellerId o; productId := no_productId o;
                productTitle := no_productTitle o; order_price := no_price o;
                shippingAddress := None; order_status := no_status o;
                order_createdAt := pretty (serial b) |} in
  (row,
   {| products := products b; orders := <[order_id row := row]> (orders b);
      messages := messages b; direct_messages := direct_messages b;
      payments := payments b; withdrawals := withdrawals b;
      serial := Datatypes.S (serial b) |}).

(** The stock step as the specification words it (§4.1, step 2): "succeed
    only if current quantity > 0, writing quantity − 1; otherwise fail with
    SoldOut". *)
Inductive StockResult := Decremented (q : Z) | SoldOut.

Definition guarded_decrement (current : Z) : StockResult :=
  if (0 <? current)%Z then Decremented (current - 1) else SoldOut.

Definition with_products (ps : gmap string Product) (b : Backend) : Backend :=
  {| products := ps; orders := orders b; messages := messages b;
     direct_messages := direct_messages b; payments := payments b;
     withdrawals := withdrawals b; serial := serial b |}.

(** Modelled from the spec: [products.updateStock(id, newQuantity)] of the
    missing [services/supabase], the guarded conditional update of §4.1
    step 2 and §5: "a single atomic read-check-write" that "fails closed".
    The store reads the quantity it holds for [id]; if that is greater than
    0 it writes that quantity minus 1 and the call is fulfilled; otherwise,
    and when it holds no such product, nothing is written and the call is
    rejected with SoldOut.  [newQuantity] is the caller's own computation
    from its copy of the product; the store decides on, and decrements, the
    quantity it holds. *)
Definition updateStock (id : string) (newQuantity : Z) (b : Backend)
  : Settled unit * Backend :=
  match products b !! id with
  | Some row =>
      match guarded_decrement (quantity row) with
      | Decremented q =>
          (Fulfilled tt, with_products (<[id := with_quantity q row]> (products b)) b)
      | SoldOut => (Rejected {| message := "SoldOut" |}, b)
      end
  | None => (Rejected {| message := "SoldOut" |}, b)
  end.

(** Modelled from the spec: [orders.markDelivered] of the missing
    [services/supabase], the transition effect of §4.3: "(1) persist status =
    delivered, (2) invoke the Messaging Engine's bulk purge for the order's
    conversation". *)
Definition markDelivered (orderId : string) (b : Backend) : Backend :=
  {| products := products b;
     orders := alter (with_status delivered) orderId (orders b);
     messages := filter (fun m => cm_orderId m <> orderId) (messages b);
     direct_messages := direct_messages b; payments := payments b;
     withdrawals := withdrawals b; serial := serial b |}.

(** Modelled from the spec: [chat.sendMessage] of the missing
    [services/supabase]: an append to the order-messages table (§3). *)
Definition chat_sendMessage (orderId senderId content : string) (b : Backend)
  : Backend :=
  {| products := products b; orders := orders b;
     messages := messages b ++
       [{| cm_id := "msg-" ++ pretty (serial b); cm_orderId := orderId;
           cm_senderId := senderId; cm_content := content;
           cm_createdAt := pretty (serial b) |}];
     direct_messages := direct_messages b; payments := payments b;
     withdrawals := withdrawals b; serial := Datatypes.S (serial b) |}.

(** Modelled from the spec: [directChat.sendMessage] of the missing
    [services/supabase]: an append to the direct-messages table (§3). *)
Definition directChat_sendMessage (senderId receiverId content : string)
    (b : Backend) : Backend :=
  {| products := products b; orders := orders b; messages := messages b;
     direct_messages := direct_messages b ++
       [{| dm_id := "dm-" ++ pretty (serial b); dm_senderId := senderId;
           dm_receiverId := receiverId; dm_content := content;
           dm_createdAt := pretty (serial b) |}];
     payments := payments b; withdrawals := withdrawals b;
     serial := Datatypes.S (serial b) |}.

(** No row of the modelled store has a negative quantity. *)
Definition stock_nonnegative (b : Backend) : Prop :=
  forall id row, products b !! id = Some row -> 0 <= quantity row.

(** The modelled services as a world for [run]: every call is fulfilled
    but the stock write, which is rejected when its guard fails. *)
Definition backend_serve (X : Type) (c : Service X) (b : Backend)
  : Settled X * Backend :=
  match c in Service X return Settled X * Backend with
  | GetPaymentStatus id => (Fulfilled (getPaymentStatus id b), b)
  | CreateWithdraw a k t => (Fulfilled tt, createWithdraw a k t b)
  | OrdersCreate o =>
      let '(row, b') := orders_create o b in
      (Fulfilled {| data := Some row; error := None |}, b')
  | OrdersMarkDelivered id => (Fulfilled tt, markDelivered id b)
  | ProductsUpdateStock id q => updateStock id q b
  | ChatSendMessage o s c => (Fulfilled tt, chat_sendMessage o s c b)
  | DirectChatSendMessage s r c => (Fulfilled tt, directChat_sendMessage s r c b)
  end.

(** The browser of the modelled world; [accept] is the user's answer to a
    confirmation dialog. *)
Definition backend_browse (accept : bool) (X : Type) (q : Browser X) (b : Backend)
  : X * Backend :=
  match q in Browser X return X * Backend with
  | WindowConfirm _ => (accept, b)
  | MathRandomToString => ("0." ++ pretty (serial b), b)
  | DateNowISO => (pretty (serial b), b)
  end.

(** ** The change feed as the chat components see it *)

Inductive EventType := INSERT | UPDATE | DELETE.

(** A row of the [messages] table, with the column names of the feed. *)
Record MessageRow := {
  mr_id : string;
  mr_order_id : string;
  mr_sender_id : string;
  mr_content : string;
  mr_created_at : string
}.

(** A row of the [direct_messages] table. *)
Record DirectRow := {
  dr_id : string;
  dr_sender_id : string;
  dr_receiver_id : string;
  dr_content : string;
  dr_created_at : string
}.

(** The payload of a [postgres_changes] callback: [payload.eventType],
    [payload.new], [payload.old]. *)
Record Payload (Row : Type) := {
  eventType : EventType;
  new : Row;
  old : Row
}.
Arguments eventType {Row} _.
Arguments new {Row} _.
Arguments old {Row} _.

(** [!newMessage.trim()]: the text is empty once the white space at its
    ends is removed, that is, it has white space only.  [trim] removes the
    white space and the line terminators of ECMAScript: U+0009 to U+000D,
    U+0020, U+00A0, U+1680, U+2000 to U+200A, U+2028, U+2029, U+202F,
    U+205F, U+3000 and U+FEFF.  A text is held here as its UTF-8 bytes:
    the first six are single bytes, U+00A0 is the two bytes C2 A0, and the
    others are three bytes each. *)
Definition is_space (a : Ascii.ascii) : bool :=
  let n := Ascii.nat_of_ascii a in
  Nat.eqb n 32 || (Nat.leb 9 n && Nat.leb n 13).

(** The two bytes of U+00A0. *)
Definition is_space2 (a b : Ascii.ascii) : bool :=
  Nat.eqb (Ascii.nat_of_ascii a) 194 && Nat.eqb (Ascii.nat_of_ascii b) 160.

(** The three bytes of U+1680 (E1 9A 80), of U+2000 to U+200A (E2 80 80 to
    E2 80 8A), of U+2028, U+2029 and U+202F (E2 80 A8, A9, AF), of U+205F
    (E2 81 9F), of U+3000 (E3 80 80) and of U+FEFF (EF BB BF). *)
Definition is_space3 (a b c : Ascii.ascii) : bool :=
  let x := Ascii.nat_of_ascii a in
  let y := Ascii.nat_of_ascii b in
  let z := Ascii.nat_of_ascii c in
  (Nat.eqb x 225 && Nat.eqb y 154 && Nat.eqb z 128)
  || (Nat.eqb x 226 && Nat.eqb y 128
      && ((Nat.leb 128 z && Nat.leb z 138)
          || Nat.eqb z 168 || Nat.eqb z 169 || Nat.eqb z 175))
  || (Nat.eqb x 226 && Nat.eqb y 129 && Nat.eqb z 159)
  || (Nat.eqb x 227 && Nat.eqb y 128 && Nat.eqb z 128)
  || (Nat.eqb x 239 && Nat.eqb y 187 && Nat.eqb z 191).

Fixpoint trims_to_empty (s : string) : bool :=
  match s with
  | EmptyString => true
  | String a rest =>
      if is_space a then trims_to_empty rest
      else
        match rest with
        | EmptyString => false
        | String b rest2 =>
            if is_space2 a b then trims_to_empty rest2
            else
              match rest2 with
              | EmptyString => false
              | String c rest3 =>
                  if is_space3 a b c then trims_to_empty rest3 else false
              end
        end
  end.

(** ** [ChatModal]: the order conversation *)

Record ChatModalState := {
  cs_messages : list ChatMessage;
  cs_newMessage : string;
  cs_sending : bool;
  cs_isClosingOrder : bool
}.

Definition cs_setMessages (f : list ChatMessage -> list ChatMessage)
    (st : ChatModalState) : ChatModalState :=
  {| cs_messages := f (cs_messages st); cs_newMessage := cs_newMessage st;
     cs_sending := cs_sending st; cs_isClosingOrder := cs_isClosingOrder st |}.

Definition cs_setNewMessage (t : string) (st : ChatModalState) : ChatModalState :=
  {| cs_messages := cs_messages st; cs_newMessage := t;
     cs_sending := cs_sending st; cs_isClosingOrder := cs_isClosingOrder st |}.

Definition cs_setSending (b : bool) (st : ChatModalState) : ChatModalState :=
  {| cs_messages := cs_messages st; cs_newMessage := cs_newMessage st;
     cs_sending := b; cs_isClosingOrder := cs_isClosingOrder st |}.

Definition cs_setIsClosingOrder (b : bool) (st : ChatModalState) : ChatModalState :=
  {| cs_messages := cs_messages st; cs_newMessage := cs_newMessage st;
     cs_sending := cs_sending st; cs_isClosingOrder := b |}.

Module ChatModal.

(** [getMessages(order.id).then(res => { if(res.data) setMessages(res.data) })] *)
Definition onSnapshot (res : SupabaseResponse (list ChatMessage))
    (log : list ChatMessage) : list ChatMessage :=
  match data res with
  | Some ms => ms
  | None => log
  end.

Definition newMsg (row : MessageRow) : ChatMessage :=
  {| cm_id := mr_id row; cm_orderId := mr_order_id row;
     cm_senderId := mr_sender_id row; cm_content := mr_content row;
     cm_createdAt := mr_created_at row |}.

(** The callback of the [order_chat] channel, as the update it applies to
    [messages]. *)
Definition onPayload (payload : Payload MessageRow) (prev : list ChatMessage)
  : list ChatMessage :=
  match eventType payload with
  | INSERT => prev ++ [newMsg (new payload)]
  | DELETE => filter (fun m => cm_id m <> mr_id (old payload)) prev
  | UPDATE => prev
  end.

Definition handleSend (order : Order) (user : option User) (st : ChatModalState)
  : Js ChatModalState unit :=
  notify PreventDefault ;;
  match user with
  | Some u =>
      if trims_to_empty (cs_newMessage st) then ret tt
      else
        setState (cs_setSending true) ;;
        try_finally
          (await (ChatSendMessage (order_id order) (user_id u) (cs_newMessage st)) ;;
           setState (cs_setNewMessage ""))
          (setState (cs_setSending false))
  | None => ret tt
  end.

Definition confirm_text : string :=
  "ATENÇÃO: Deseja realmente APAGAR este chat? O histórico será perdido permanentemente.".

Definition handleMarkDelivered (order : Order) : Js ChatModalState unit :=
  ok ← ask (WindowConfirm confirm_text);
  if negb ok then ret tt
  else
    setState (cs_setIsClosingOrder true) ;;
    await (OrdersMarkDelivered (order_id order)) ;;
    setState (cs_setIsClosingOrder false) ;;
    notify OnClose.

(** [user?.id === order.sellerId] *)
Definition isSeller (order : Order) (user : option User) : bool :=
  match user with
  | Some u => String.eqb (user_id u) (order_sellerId order)
  | None => false
  end.

(** The "Apagar Chat & Finalizar" button is rendered under [isSeller &&]
    and is the only place [handleMarkDelivered] is attached to: a click by
    the viewer runs the handler when the button is there and nothing
    otherwise. *)
Definition clickMarkDelivered (order : Order) (user : option User)
  : Js ChatModalState unit :=
  if isSeller order user then handleMarkDelivered order else ret tt.

End ChatModal.

(** ** [DirectChatModal]: the direct conversation *)

Record DirectChatState := {
  ds_messages : list DirectMessage;
  ds_newMessage : string;
  ds_sending : bool
}.

Definition ds_setMessages (f : list DirectMessage -> list DirectMessage)
    (st : DirectChatState) : DirectChatState :=
  {| ds_messages := f (ds_messages st); ds_newMessage := ds_newMessage st;
     ds_sending := ds_sending st |}.

Definition ds_setNewMessage (t : string) (st : DirectChatState) : DirectChatState :=
  {| ds_messages := ds_messages st; ds_newMessage := t; ds_sending := ds_sending st |}.

Definition ds_setSending (b : bool) (st : DirectChatState) : DirectChatState :=
  {| ds_messages := ds_messages st; ds_newMessage := ds_newMessage st;
     ds_sending := b |}.

Module DirectChatModal.

(** [getMessages(user.id, buyer.id).then(res => { if(res.data) setMessages(res.data) })] *)
Definition onSnapshot (res : SupabaseResponse (list DirectMessage))
    (log : list DirectMessage) : list DirectMessage :=
  match data res with
  | Some ms => ms
  | None => log
  end.

Definition isRelevant (user buyer : User) (newMsg : DirectRow) : bool :=
  (String.eqb (dr_sender_id newMsg) (user_id user)
   && String.eqb (dr_receiver_id newMsg) (user_id buyer))
  || (String.eqb (dr_sender_id newMsg) (user_id buyer)
      && String.eqb (dr_receiver_id newMsg) (user_id user)).

Definition fromRow (row : DirectRow) : DirectMessage :=
  {| dm_id := dr_id row; dm_senderId := dr_sender_id row;
     dm_receiverId := dr_receiver_id row; dm_content := dr_content row;
     dm_createdAt := dr_created_at row |}.

(** The callback of the [direct_chat] channel (INSERT events of the
    [direct_messages] table), as the update it applies to [messages]. *)
Definition onInsert (user buyer : User) (payload : Payload DirectRow)
    (prev : list DirectMessage) : list DirectMessage :=
  let newMsg := new payload in
  if isRelevant user buyer newMsg then
    if negb (String.eqb (dr_sender_id newMsg) (user_id user))
    then prev ++ [fromRow newMsg]
    else prev
  else prev.

Definition optimisticMsg (user buyer : User) (id contentToSend createdAt : string)
  : DirectMessage :=
  {| dm_id := id; dm_senderId := user_id user; dm_receiverId := user_id buyer;
     dm_content := contentToSend; dm_createdAt := createdAt |}.

Definition handleSend (buyer : User) (user : option User) (onMessageSent : bool)
    (st : DirectChatState) : Js DirectChatState unit :=
  notify PreventDefault ;;
  match user with
  | Some u =>
      if trims_to_empty (ds_newMessage st) then ret tt
      else
        let contentToSend := ds_newMessage st in
        setState (ds_setNewMessage "") ;;
        setState (ds_setSending true) ;;
        id ← ask MathRandomToString;
        createdAt ← ask DateNowISO;
        setState (ds_setMessages
                    (fun prev => (prev ++ [optimisticMsg u buyer id contentToSend createdAt])%list)) ;;
        try_finally
          (try_catch
             (await (DirectChatSendMessage (user_id u) (user_id buyer) contentToSend) ;;
              if onMessageSent then notify OnMessageSent else ret tt)
             (fun err => notify (ConsoleError err)))
          (setState (ds_setSending false))
  | None => ret tt
  end.

End DirectChatModal.

(** ** Subscriptions to the change feed

    The [supabase] client object comes from [services/supabase]; the
    components create a channel in an effect and hand that same channel
    to [removeChannel] in the effect's cleanup. *)

Section Realtime.
Context {S Row : Type}.

(** A subscribed channel: the view whose [setMessages] its callback calls,
    the events it was subscribed to, and the callback. *)
Record Channel := {
  ref : nat;
  topic : string;
  listener : nat;
  accepts : Payload Row -> bool;
  callback : Payload Row -> S -> S
}.

(** The client's subscription list (§9: "Global mutable subscription
    list"), with the counter that tells channel objects apart. *)
Record Client := {
  channels : list Channel;
  next_ref : nat
}.

(** Modelled from the spec: [supabase.channel(topic).on(..., callback)
    .subscribe()] of the missing client, the "subscribe-with-filter
    primitive" of §6: a new channel joins the subscription list. *)
Definition subscribe (name : string) (view : nat) (flt : Payload Row -> bool)
    (cb : Payload Row -> S -> S) (c : Client) : nat * Client :=
  (next_ref c,
   {| channels := channels c ++
        [{| ref := next_ref c; topic := name; listener := view;
            accepts := flt; callback := cb |}];
      next_ref := Datatypes.S (next_ref c) |}).

(** Modelled from the spec: [supabase.removeChannel(channel)] of the missing
    client, the "releases the subscription" of §4.2: the channel leaves the
    subscription list. *)
Definition removeChannel (channel : nat) (c : Client) : Client :=
  {| channels := filter (fun ch => ref ch <> channel) (channels c);
     next_ref := next_ref c |}.

(** The open views with their React state, and the client. *)
Record Page := {
  views : gmap nat S;
  client : Client
}.

(** Modelled from the spec: the delivery of one feed event (§5: "the live
    change feed delivers events as asynchronous callbacks"): the callback of
    every subscribed channel that accepts the event runs on the state of its
    view. *)
Definition deliver (payload : Payload Row) (pg : Page) : Page :=
  {| views := foldl (fun vs ch =>
                       if accepts ch payload
                       then alter (callback ch payload) (listener ch) vs
                       else vs)
                    (views pg) (channels (client pg));
     client := client pg |}.

(** The body of a chat view's subscription effect, and its cleanup
    [() => { supabase.removeChannel(channel); }]. *)
Definition effect (name : string) (view : nat) (flt : Payload Row -> bool)
    (cb : Payload Row -> S -> S) (pg : Page) : nat * Page :=
  let '(channel, c) := subscribe name view flt cb (client pg) in
  (channel, {| views := views pg; client := c |}).

Definition cleanup (channel : nat) (pg : Page) : Page :=
  {| views := views pg; client := removeChannel channel (client pg) |}.

(** One open/close cycle of a view. *)
Definition cycle (name : string) (view : nat) (flt : Payload Row -> bool)
    (cb : Payload Row -> S -> S) (pg : Page) : Page :=
  let '(channel, pg') := effect name view flt cb pg in cleanup channel pg'.

(** Every channel object in the list was handed out by the counter. *)
Definition well_formed (c : Client) : Prop :=
  Forall (fun ch => (ref ch < next_ref c)%nat) (channels c).

(** No subscribed channel calls back into [view]. *)
Definition unsubscribed (view : nat) (c : Client) : Prop :=
  Forall (fun ch => listener ch <> view) (channels c).
End Realtime.

Arguments Channel : clear implicits.
Arguments Client : clear implicits.
Arguments Page : clear implicits.

(** The row a server-side equality filter looks at. *)
Definition filtered_row {Row} (payload : Payload Row) : Row :=
  match eventType payload with
  | DELETE => old payload
  | _ => new payload
  end.

(** [ChatModal]'s effect: [event: '*'] on [messages] with the filter
    [order_id=eq.${order.id}]. *)
Definition ChatModal_effect (order : Order) (view : nat)
    (pg : Page ChatModalState MessageRow) : nat * Page ChatModalState MessageRow :=
  effect ("order_chat:" ++ order_id order) view
    (fun payload => String.eqb (mr_order_id (filtered_row payload)) (order_id order))
    (fun payload => cs_setMessages (ChatModal.onPayload payload))
    pg.

(** [DirectChatModal]'s effect: nothing without a user; otherwise
    [event: 'INSERT'] on [direct_messages], unfiltered. *)
Definition DirectChatModal_effect (buyer : User) (user : option User) (view : nat)
    (pg : Page DirectChatState DirectRow)
  : option nat * Page DirectChatState DirectRow :=
  match user with
  | Some u =>
      let '(channel, pg') :=
        effect ("direct_chat:" ++ user_id u ++ "_" ++ user_id buyer) view
          (fun payload => match eventType payload with INSERT => true | _ => false end)
          (fun payload => ds_setMessages (DirectChatModal.onInsert u buyer payload))
          pg in
      (Some channel, pg')
  | None => (None, pg)
  end.

(** React calls the cleanup only when the effect returned one. *)
Definition DirectChatModal_cleanup (channel : option nat)
    (pg : Page DirectChatState DirectRow) : Page DirectChatState DirectRow :=
  match channel with
  | Some c => cleanup c pg
  | None => pg
  end.

(** One open/close cycle of each chat view. *)
Definition ChatModal_cycle (order : Order) (view : nat)
    (pg : Page ChatModalState MessageRow) : Page ChatModalState MessageRow :=
  cleanup (ChatModal_effect order view pg).1 (ChatModal_effect order view pg).2.

Definition DirectChatModal_cycle (buyer : User) (user : option User) (view : nat)
    (pg : Page DirectChatState DirectRow) : Page DirectChatState DirectRow :=
  DirectChatModal_cleanup (DirectChatModal_effect buyer user view pg).1
    (DirectChatModal_effect buyer user view pg).2.

(** A page with one chat view and no subscription yet. *)
Definition fresh_page {S Row : Type} (view : nat) (init : S) : Page S Row :=
  {| views := {[ view := init ]};
     client := {| channels := []; next_ref := 0 |} |}.

Definition idle_direct_chat : DirectChatState :=
  {| ds_messages := []; ds_newMessage := ""; ds_sending := false |}.

(** What the claim on [close] asks of a view that was opened on the page
    [before], got the channel [channel] and is closed from [opened]: the
    subscription list is back to what it was, closing again changes nothing,
    no channel calls back into the view, and no run of feed events changes
    the view's state. *)
Definition released {S Row : Type} (view : nat) (before : Page S Row)
    (channel : nat) (opened : Page S Row) : Prop :=
  let closed := cleanup channel opened in
  channels (client closed) = channels (client before)
  /\ cleanup channel closed = closed
  /\ unsubscribed view (client closed)
  /\ forall payloads,
       views (foldl (fun pg payload => deliver payload pg) closed payloads) !! view
       = views before !! view.

(** ** Runs of the chat components *)

(** The order chat's log after a run of feed events, in feed order. *)
Definition ChatModal_onFeed (events : list (Payload MessageRow))
    (log : list ChatMessage) : list ChatMessage :=
  foldl (fun prev payload => ChatModal.onPayload payload prev) log events.

(** The direct chat's log after a run of feed events, in feed order. *)
Definition DirectChatModal_onFeed (user buyer : User)
    (events : list (Payload DirectRow)) (log : list DirectMessage)
  : list DirectMessage :=
  foldl (fun prev payload => DirectChatModal.onInsert user buyer payload prev)
        log events.

(** A message between the two parties of a direct conversation. *)
Definition between (user buyer : User) (m : DirectMessage) : Prop :=
  (dm_senderId m = user_id user /\ dm_receiverId m = user_id buyer)
  \/ (dm_senderId m = user_id buyer /\ dm_receiverId m = user_id user).

(** What can happen to an open direct conversation of [user] with [buyer]:
    the snapshot arrives, a feed event arrives, the user edits the input,
    the user submits the form.  The snapshot is the store's answer to
    [getMessages(user.id, buyer.id)], "all messages for key" (§4.2). *)
Inductive direct_step (user buyer : User)
  : DirectChatState -> DirectChatState -> Prop :=
| step_snapshot res st :
    (forall ms, data res = Some ms -> Forall (between user buyer) ms) ->
    direct_step user buyer st
      (ds_setMessages (DirectChatModal.onSnapshot res) st)
| step_insert payload st :
    direct_step user buyer st
      (ds_setMessages (DirectChatModal.onInsert user buyer payload) st)
| step_edit text st :
    direct_step user buyer st (ds_setNewMessage text st)
| step_submit (W : Type) (serve : forall X, Service X -> W -> Settled X * W)
    (browse : forall X, Browser X -> W -> X * W) (w : W) onMessageSent st :
    direct_step user buyer st
      (state_after (run serve browse
                      (DirectChatModal.handleSend buyer (Some user) onMessageSent st)
                      st w)).

#[global] Instance DirectMessage_eq_dec : EqDecision DirectMessage.
Proof. solve_decision. Defined.

(** What arrives from the store in an open direct conversation: the
    snapshot asked for when the chat opened, and the insert events of the
    feed. *)
Inductive direct_arrival (user buyer : User)
  : DirectChatState -> DirectChatState -> Prop :=
| arrives_snapshot res st :
    (forall ms, data res = Some ms -> Forall (between user buyer) ms) ->
    direct_arrival user buyer st
      (ds_setMessages (DirectChatModal.onSnapshot res) st)
| arrives_insert payload st :
    direct_arrival user buyer st
      (ds_setMessages (DirectChatModal.onInsert user buyer payload) st).

(** The claim on a sent message, read on one submit of [user] in the chat
    with [buyer], of a text that is not blank and whose copy is not in the
    log yet: whatever arrives from the store after the optimistic append,
    the copy is in the log exactly once. *)
Definition appears_exactly_once (user buyer : User) (st : DirectChatState)
    (answers : forall X, Browser X -> X) : Prop :=
  let mine := DirectChatModal.optimisticMsg user buyer
                (answers _ MathRandomToString) (ds_newMessage st)
                (answers _ DateNowISO) in
  let sent := (sync answers
                 (DirectChatModal.handleSend buyer (Some user) false st) st).1.1 in
  trims_to_empty (ds_newMessage st) = false ->
  mine ∉ ds_messages st ->
  forall st',
    rtc (direct_arrival user buyer) sent st' ->
    length (filter (fun m => m = mine) (ds_messages st')) = 1%nat.

(** ** Clicks on "Apagar Chat & Finalizar" *)

(** One viewer of one order's chat clicking where the button is and
    answering the dialog. *)
Record Click := {
  viewer : option User;
  viewed : Order;
  accepted : bool
}.

Definition closed_chat : ChatModalState :=
  {| cs_messages := []; cs_newMessage := ""; cs_sending := false;
     cs_isClosingOrder := false |}.

Definition click_outcome (c : Click) (b : Backend)
  : Outcome ChatModalState Backend (Settled unit) :=
  run backend_serve (backend_browse (accepted c))
      (ChatModal.clickMarkDelivered (viewed c) (viewer c)) closed_chat b.

Definition click (c : Click) (b : Backend) : Backend :=
  world_after (click_outcome c b).

Definition status_of (b : Backend) (id : string) : option OrderStatus :=
  order_status <$> orders b !! id.

(** The statuses an order goes through along a run of clicks. *)
Fixpoint history (id : string) (b : Backend) (cs : list Click)
  : list (option OrderStatus) :=
  match cs with
  | [] => [status_of b id]
  | c :: rest => status_of b id :: history id (click c b) rest
  end.

(** How often the status differs from one entry to the next. *)
Fixpoint changes (l : list (option OrderStatus)) : nat :=
  match l with
  | x :: rest =>
      match rest with
      | y :: _ => (if decide (x = y) then 0 else 1) + changes rest
      | [] => 0
      end
  | [] => 0
  end%nat.

(** The messages of one order in the store. *)
Definition conversation (b : Backend) (orderId : string) : list ChatMessage :=
  filter (fun m => cm_orderId m = orderId) (messages b).

(** ** Scenarios

    Concrete data the statements below are run on. *)

Definition sample_product (q : Z) : Product :=
  {| product_id := "p1"; title := "Bicicleta"; description := "Aro 29";
     price := 5000; imageUrl := "bike.png"; imagePath := None; city := "Recife";
     pixKey := "sol@pix"; pixKeyType := EMAIL; quantity := q;
     deliveryMethod := pickup; sellerId := "seller"; sellerName := "Sol";
     sellerAvatar := None; product_createdAt := "2024-01-01" |}.

Definition sample_user (id : string) (r : UserRole) : User :=
  {| user_id := id; user_email := id ++ "@mail"; user_name := id;
     user_role := r; user_status := active; user_avatarUrl := None;
     user_createdAt := "2024-01-01" |}.

Definition alice : User := sample_user "alice" buyer_role.
Definition bob : User := sample_user "bob" buyer_role.
Definition sol : User := sample_user "seller" premium.

(** The product page of a buyer who loaded the product with stock [q] and
    was handed the payment intent [pay]. *)
Definition payment_page (q : Z) (pay : string) : ProductDetailsState :=
  {| product := Some (sample_product q); loading := false; showPayment := true;
     paymentData := Some {| pd_id := pay; qrcodeUrl := "qr.png"; copyPaste := None |};
     verifying := false; directChatUser := None |}.

(** A shop with two units of the product in stock and two settled payment
    intents; a third intent is still pending. *)
Definition shop : Backend :=
  {| products := {[ "p1" := sample_product 2 ]}; orders := ∅; messages := [];
     direct_messages := [];
     payments := {[ "payA" := "COMPLETED"; "payB" := "ACTIVE"; "payC" := "PENDING" ]};
     withdrawals := []; serial := 0 |}.

(** The shop after Alice, who loaded the page with two units in stock,
    confirmed her payment. *)
Definition shop_after_alice : Backend :=
  world_after (run backend_serve (backend_browse true)
                 (confirmPayment (payment_page 2 "payA") (Some alice))
                 (payment_page 2 "payA") shop).

(** A world that answers from a script and counts the calls it served. *)
Record Script := {
  status_answer : Settled StatusRes;
  create_answer : Settled (SupabaseResponse Order);
  other_answer : Settled unit
}.

Definition scripted_serve (sc : Script) (X : Type) (c : Service X) (n : nat)
  : Settled X * nat :=
  (match c in Service X return Settled X with
   | GetPaymentStatus _ => status_answer sc
   | OrdersCreate _ => create_answer sc
   | CreateWithdraw _ _ _ => other_answer sc
   | OrdersMarkDelivered _ => other_answer sc
   | ProductsUpdateStock _ _ => other_answer sc
   | ChatSendMessage _ _ _ => other_answer sc
   | DirectChatSendMessage _ _ _ => other_answer sc
   end, Datatypes.S n).

Definition scripted_browse (accept : bool) (X : Type) (q : Browser X) (n : nat)
  : X * nat :=
  (match q in Browser X return X with
   | WindowConfirm _ => accept
   | MathRandomToString => "0.42"
   | DateNowISO => "2024-05-05T12:00:00.000Z"
   end, n).

Definition paid_answer : Settled StatusRes :=
  Fulfilled {| success := true; status_data := Some {| status := "COMPLETED" |} |}.

Definition store_down : Script :=
  {| status_answer := paid_answer;
     create_answer := Fulfilled {| data := None; error := Some "insert failed" |};
     other_answer := Fulfilled tt |}.

(** The browser's answers used in the scenarios. *)
Definition fixed_answers (X : Type) (q : Browser X) : X :=
  (scripted_browse true X q 0%nat).1.

(** A direct chat with an empty log and [text] typed into the input. *)
Definition typing (text : string) : DirectChatState :=
  {| ds_messages := []; ds_newMessage := text; ds_sending := false |}.

Definition write_fails : Script :=
  {| status_answer := paid_answer;
     create_answer := Rejected {| message := "offline" |};
     other_answer := Rejected {| message := "offline" |} |}.

Definition insert_event (id sender receiver text : string) : Payload DirectRow :=
  let row := {| dr_id := id; dr_sender_id := sender; dr_receiver_id := receiver;
                dr_content := text; dr_created_at := "2024-05-05" |} in
  {| eventType := INSERT; new := row; old := row |}.

(** The claim on remote deletes, read on one event: after the handler ran,
    no message of the affected order is left in the log. *)
Definition purges_order (payload : Payload MessageRow) (prev : list ChatMessage)
  : Prop :=
  Forall (fun m => cm_orderId m <> mr_order_id (old payload))
         (ChatModal.onPayload payload prev).

Definition order_message (id orderId sender text : string) : ChatMessage :=
  {| cm_id := id; cm_orderId := orderId; cm_senderId := sender;
     cm_content := text; cm_createdAt := "2024-05-05" |}.

Definition delete_event (id orderId : string) : Payload MessageRow :=
  let row := {| mr_id := id; mr_order_id := orderId; mr_sender_id := "";
                mr_content := ""; mr_created_at := "" |} in
  {| eventType := DELETE; new := row; old := row |}.

(** * The rest of the application *)

(** ** Routes and roles *)

#[global] Instance UserRole_eq_dec : EqDecision UserRole.
Proof. solve_decision. Defined.

Record AuthState := {
  auth_user : option User;
  isAuthenticated : bool;
  isLoading : bool
}.

(** The routes of [App], by the [path] they are declared with. *)
Inductive Location :=
| AtLogin
| AtRoot
| AtFeed
| AtProduct (id : string)
| AtCreateAd
| AtSellerDashboard
| AtAdmin
| AtProfile.

Definition href (l : Location) : string :=
  match l with
  | AtLogin => "/login"
  | AtRoot => "/"
  | AtFeed => "/feed"
  | AtProduct id => "/product/" ++ id
  | AtCreateAd => "/create-ad"
  | AtSellerDashboard => "/seller-dashboard"
  | AtAdmin => "/admin"
  | AtProfile => "/profile"
  end.

(** The page components a route can show. *)
Inductive Screen :=
| LoginPage
| Feed
| ProductDetails (id : string)
| CreateAd
| SellerDashboard
| AdminDashboard
| Profile.

(** What a route element renders to: the "Carregando Nexus..." placeholder,
    a [<Navigate to=... />], or a page. *)
Inductive Rendering :=
| Placeholder
| NavigateTo (l : Location)
| Shows (s : Screen).

(** [allowedRoles.includes(user.role)] *)
Definition includes_role (allowedRoles : list UserRole) (r : UserRole) : bool :=
  bool_decide (r ∈ allowedRoles).

Definition ProtectedRoute (auth : AuthState) (allowedRoles : list UserRole)
    (children : Screen) : Rendering :=
  if isLoading auth then Placeholder
  else
    match auth_user auth with
    | Some u =>
        if negb (isAuthenticated auth) then NavigateTo AtLogin
        else if negb (includes_role allowedRoles (user_role u)) then NavigateTo AtFeed
        else Shows children
    | None => NavigateTo AtLogin
    end.

(** The [<Routes>] table of [App]. *)
Definition App_routes (auth : AuthState) (l : Location) : Rendering :=
  match l with
  | AtLogin => Shows LoginPage
  | AtRoot => NavigateTo AtFeed
  | AtFeed => ProtectedRoute auth [admin; premium; buyer_role] Feed
  | AtProduct id => ProtectedRoute auth [admin; premium; buyer_role] (ProductDetails id)
  | AtCreateAd => ProtectedRoute auth [admin; premium] CreateAd
  | AtSellerDashboard => ProtectedRoute auth [admin; premium] SellerDashboard
  | AtAdmin => ProtectedRoute auth [admin] AdminDashboard
  | AtProfile => ProtectedRoute auth [admin; premium; buyer_role] Profile
  end.

(** The browser following [<Navigate>] elements from a location, at most
    [fuel] times. *)
Fixpoint settle (fuel : nat) (auth : AuthState) (l : Location) : Rendering :=
  match App_routes auth l with
  | NavigateTo l' =>
      match fuel with
      | O => NavigateTo l'
      | Datatypes.S n => settle n auth l'
      end
  | r => r
  end.

(** [FloatingDashboardButton]: no button without a user or for a buyer;
    otherwise the location its click navigates to. *)
Definition FloatingDashboardButton (user : option User) : option Location :=
  match user with
  | None => None
  | Some u =>
      match user_role u with
      | buyer_role => None
      | premium => Some AtSellerDashboard
      | admin => Some AtAdmin
      end
  end.

(** [user?.role === r] *)
Definition has_role (user : option User) (r : UserRole) : bool :=
  match user with
  | Some u => bool_decide (user_role u = r)
  | None => false
  end.

(** The locations the [navigate] calls of [Navbar] lead to, for the
    controls it renders: the bar of wide screens followed by the menu of
    narrow ones. *)
Definition Navbar_targets (user : option User) : list Location :=
  ([AtFeed; AtFeed]
   ++ (if has_role user admin then [AtAdmin] else [])
   ++ (if has_role user premium || has_role user admin
       then [AtSellerDashboard; AtCreateAd; AtSellerDashboard] else [])
   ++ [AtProfile]
   ++ [AtFeed]
   ++ (if has_role user premium || has_role user admin
       then [AtSellerDashboard; AtCreateAd] else [])
   ++ (if has_role user admin then [AtAdmin] else [])
   ++ [AtProfile])%list.

(** The state a signed-in session has once loading is over. *)
Definition signed_in (u : User) : AuthState :=
  {| auth_user := Some u; isAuthenticated := true; isLoading := false |}.

(** ** Handlers over any family of service calls

    The handlers below call services the settlement and chat handlers do
    not; their trees are the same trees, over a family [E] of calls. *)

Section Tasks.
Context {E : Type -> Type} {S : Type}.

Inductive Task (R : Type) : Type :=
| Return (r : R)
| Call {X : Type} (c : E X) (k : Settled X -> Task R)
| Query {X : Type} (q : Browser X) (k : X -> Task R)
| Update (f : S -> S) (k : Task R)
| Emit (n : Notice) (k : Task R).
Arguments Return {R} _.
Arguments Call {R X} _ _.
Arguments Query {R X} _ _.
Arguments Update {R} _ _.
Arguments Emit {R} _ _.

Fixpoint task_bind {A B : Type} (t : Task A) (f : A -> Task B) : Task B :=
  match t with
  | Return a => f a
  | Call c k => Call c (fun x => task_bind (k x) f)
  | Query q k => Query q (fun x => task_bind (k x) f)
  | Update g k => Update g (task_bind k f)
  | Emit n k => Emit n (task_bind k f)
  end.

(** An async function body over [E]. *)
Definition Async (A : Type) : Type := Task (Settled A).

Definition done {A} (a : A) : Async A := Return (Fulfilled a).
Definition fail {A} (e : JsError) : Async A := Return (Rejected e).

Definition andThen {A B} (m : Async A) (f : A -> Async B) : Async B :=
  task_bind m (fun s => match s with
                        | Fulfilled a => f a
                        | Rejected e => Return (Rejected e)
                        end).

Definition call {X} (c : E X) : Async X := Call c Return.
Definition query {X} (q : Browser X) : Async X := Query q (fun x => done x).
Definition update (f : S -> S) : Async unit := Update f (done tt).
Definition emit (n : Notice) : Async unit := Emit n (done tt).

(** [try { m } catch (e) { h e }] *)
Definition catching {A} (m : Async A) (h : JsError -> Async A) : Async A :=
  task_bind m (fun s => match s with
                        | Fulfilled a => done a
                        | Rejected e => h e
                        end).

(** [try { m } finally { fin }] *)
Definition finally {A} (m : Async A) (fin : Async unit) : Async A :=
  task_bind m (fun s => task_bind fin (fun t => match t with
                                                | Fulfilled _ => Return s
                                                | Rejected e => Return (Rejected e)
                                                end)).

(** One entry of the log of a run. *)
Inductive Entry :=
| Did {X : Type} (c : E X)
| Queried {X : Type} (q : Browser X)
| Emitted (n : Notice).

Section Perform.
Context {W : Type}.
Variable serve : forall X, E X -> W -> Settled X * W.
Variable browse : forall X, Browser X -> W -> X * W.

Record Ending (R : Type) := {
  completion : R;
  final_state : S;
  final_world : W;
  entries : list Entry
}.
Arguments completion {R} _.
Arguments final_state {R} _.
Arguments final_world {R} _.
Arguments entries {R} _.

Definition noted {R} (e : Entry) (o : Ending R) : Ending R :=
  {| completion := completion o; final_state := final_state o;
     final_world := final_world o; entries := e :: entries o |}.

(** Every call is answered at once. *)
Fixpoint perform {R} (t : Task R) (s : S) (w : W) : Ending R :=
  match t with
  | Return r =>
      {| completion := r; final_state := s; final_world := w; entries := [] |}
  | Call c k =>
      let a := serve _ c w in
      noted (Did c) (perform (k (fst a)) s (snd a))
  | Query q k =>
      let a := browse _ q w in
      noted (Queried q) (perform (k (fst a)) s (snd a))
  | Update f k => perform k (f s) w
  | Emit n k => noted (Emitted n) (perform k s w)
  end.
End Perform.

(** A handler between its call and its first [await]. *)
Inductive Pending (R : Type) : Type :=
| Settled_with (r : R)
| Awaiting {X : Type} (c : E X) (k : Settled X -> Task R).
Arguments Settled_with {R} _.
Arguments Awaiting {R X} _ _.

Fixpoint start {R} (answers : forall X, Browser X -> X) (t : Task R) (s : S)
  : S * list Notice * Pending R :=
  match t with
  | Return r => (s, [], Settled_with r)
  | Call c k => (s, [], Awaiting c k)
  | Query q k => start answers (k (answers _ q)) s
  | Update f k => start answers k (f s)
  | Emit n k =>
      let '(s', ns, pk) := start answers k s in (s', n :: ns, pk)
  end.
End Tasks.

Arguments Task : clear implicits.
Arguments Async : clear implicits.
Arguments Entry : clear implicits.
Arguments Pending : clear implicits.
Arguments Ending : clear implicits.
Arguments Return {E S R} _.
Arguments Call {E S R X} _ _.
Arguments Query {E S R X} _ _.
Arguments Update {E S R} _ _.
Arguments Emit {E S R} _ _.
Arguments Did {E X} _.
Arguments Queried {E X} _.
Arguments Emitted {E} _.
Arguments Settled_with {E S R} _.
Arguments Awaiting {E S R X} _ _.
Arguments completion {E S W R} _.
Arguments final_state {E S W R} _.
Arguments final_world {E S W R} _.
Arguments entries {E S W R} _.

#[global] Instance Async_ret {E S} : MRet (Async E S) := fun _ a => done a.
#[global] Instance Async_bind {E S} : MBind (Async E S) :=
  fun _ _ f m => andThen m f.

(** A handler of one component run from another: its state updates are
    applied to the part of the combined state it owns. *)
Fixpoint within {E : Type -> Type} {S1 S2 R : Type}
    (lift : (S1 -> S1) -> S2 -> S2) (t : Task E S1 R) : Task E S2 R :=
  match t with
  | Return r => Return r
  | Call c k => Call c (fun x => within lift (k x))
  | Query q k => Query q (fun x => within lift (k x))
  | Update f k => Update (lift f) (within lift k)
  | Emit n k => Emit n (within lift k)
  end.

(** ** The other service calls of [App.tsx] *)

Record SignInData := { signed_user : User }.

Record PaymentRes := {
  pr_success : bool;
  pr_data : option PaymentData;
  pr_error : option string
}.

(** The [File] of the image input, as far as the page looks at it. *)
Record File := { file_name : string }.

Record UploadRes := {
  url : string;
  path : string
}.

(** The first argument of [products.create] in [CreateAd]; the two numbers
    are what [parseFloat] and [parseInt] made of the form's texts. *)
Record NewProduct := {
  np_title : string;
  np_description : string;
  np_price : Z;
  np_city : string;
  np_quantity : Z;
  np_pixKey : string;
  np_pixKeyType : PixKeyType;
  np_imageUrl : string;
  np_imagePath : string;
  np_deliveryMethod : DeliveryMethod
}.

Inductive AppService : Type -> Type :=
| AuthGetSession : AppService (option User)
| AuthSignIn (email password : string)
  : AppService (SupabaseResponse SignInData)
| AuthSignOut : AppService unit
| CreatePayment (amount : Z) (description : string) : AppService PaymentRes
| StorageUploadImage (image : File) (ownerId : string)
  : AppService (option UploadRes)
| ProductsCreate (p : NewProduct) (owner : User) : AppService unit
| ProductsDelete (id : string) : AppService unit.

(** ** [AuthProvider] *)

Definition stopLoading (s : AuthState) : AuthState :=
  {| auth_user := auth_user s; isAuthenticated := isAuthenticated s;
     isLoading := false |}.

Definition startLoading (s : AuthState) : AuthState :=
  {| auth_user := auth_user s; isAuthenticated := isAuthenticated s;
     isLoading := true |}.

Definition signed_out : AuthState :=
  {| auth_user := None; isAuthenticated := false; isLoading := false |}.

Module AuthProvider.

(** The argument of [useState]. *)
Definition initial : AuthState :=
  {| auth_user := None; isAuthenticated := false; isLoading := true |}.

Definition login (email password : string) : Async AppService AuthState unit :=
  update startLoading ;;
  catching
    (res ← call (AuthSignIn email password);
     match data res, truthy (error res) with
     | Some d, false => update (fun _ => signed_in (signed_user d))
     | _, _ =>
         update stopLoading ;;
         fail {| message := or_else (error res) "Login failed" |}
     end)
    (fun e => update stopLoading ;; fail e).

Definition logout : Async AppService AuthState unit :=
  call AuthSignOut ;;
  update (fun _ => signed_out).

Definition updateUser (updatedUser : User) (prev : AuthState) : AuthState :=
  {| auth_user := Some updatedUser; isAuthenticated := isAuthenticated prev;
     isLoading := isLoading prev |}.

(** The provider with the two variables of its effect's closure: [mounted]
    and whether [safetyTimeout] is still armed. *)
Record Provider := {
  auth : AuthState;
  mounted : bool;
  armed : bool
}.

(** After the first render and the start of the effect. *)
Definition mount : Provider :=
  {| auth := initial; mounted := true; armed := true |}.

(** The callback of [setTimeout(..., 5000)]; a cleared timeout does not
    fire. *)
Definition onSafetyTimeout (p : Provider) : Provider :=
  if armed p then
    {| auth := if mounted p
               then (if isLoading (auth p) then stopLoading (auth p) else auth p)
               else auth p;
       mounted := mounted p; armed := false |}
  else p.

(** [getSession().then(user => ...)] *)
Definition onSession (user : option User) (p : Provider) : Provider :=
  if negb (mounted p) then p
  else
    {| auth := match user with
               | Some u => signed_in u
               | None => stopLoading (auth p)
               end;
       mounted := mounted p; armed := false |}.

(** [getSession().catch(err => ...)] *)
Definition onSessionError (p : Provider) : Provider :=
  {| auth := if mounted p then stopLoading (auth p) else auth p;
     mounted := mounted p; armed := false |}.

(** The cleanup of the effect. *)
Definition unmount (p : Provider) : Provider :=
  {| auth := auth p; mounted := false; armed := false |}.

Definition with_auth (a : AuthState) (p : Provider) : Provider :=
  {| auth := a; mounted := mounted p; armed := armed p |}.

(** What can happen to the provider, in any order: the effect's callbacks
    and cleanup, and the three functions it hands out through the context,
    run in any world. *)
Inductive step : Provider -> Provider -> Prop :=
| step_timeout p : step p (onSafetyTimeout p)
| step_session user p : step p (onSession user p)
| step_session_error p : step p (onSessionError p)
| step_unmount p : step p (unmount p)
| step_login (W : Type) (serve : forall X, AppService X -> W -> Settled X * W)
    (browse : forall X, Browser X -> W -> X * W) (w : W) email password p :
    step p (with_auth (final_state (perform serve browse (login email password)
                                      (auth p) w)) p)
| step_logout (W : Type) (serve : forall X, AppService X -> W -> Settled X * W)
    (browse : forall X, Browser X -> W -> X * W) (w : W) p :
    step p (with_auth (final_state (perform serve browse logout (auth p) w)) p)
| step_updateUser u p : step p (with_auth (updateUser u (auth p)) p).

(** [isAuthenticated] is set only together with a user. *)
Definition consistent (a : AuthState) : Prop :=
  isAuthenticated a = true -> is_Some (auth_user a).

End AuthProvider.

(** ** [LoginPage] *)

Record LoginPageState := {
  lp_email : string;
  lp_password : string;
  lp_error : string;
  lp_loading : bool
}.

Definition lp_setError (e : string) (s : LoginPageState) : LoginPageState :=
  {| lp_email := lp_email s; lp_password := lp_password s; lp_error := e;
     lp_loading := lp_loading s |}.

Definition lp_setLoading (b : bool) (s : LoginPageState) : LoginPageState :=
  {| lp_email := lp_email s; lp_password := lp_password s; lp_error := lp_error s;
     lp_loading := b |}.

(** The login page together with the provider's state its [login] writes. *)
Record LoginView := {
  lv_auth : AuthState;
  lv_page : LoginPageState
}.

Definition on_auth (f : AuthState -> AuthState) (v : LoginView) : LoginView :=
  {| lv_auth := f (lv_auth v); lv_page := lv_page v |}.

Definition on_page (f : LoginPageState -> LoginPageState) (v : LoginView)
  : LoginView :=
  {| lv_auth := lv_auth v; lv_page := f (lv_page v) |}.

Definition LoginPage_handleSubmit (v : LoginView)
  : Async AppService LoginView unit :=
  emit PreventDefault ;;
  update (on_page (lp_setLoading true)) ;;
  update (on_page (lp_setError "")) ;;
  finally
    (catching
       (within on_auth
          (AuthProvider.login (lp_email (lv_page v)) (lp_password (lv_page v))) ;;
        emit (Navigate "/feed"))
       (fun err => update (on_page (lp_setError (message err)))))
    (update (on_page (lp_setLoading false))).

(** ** [ProductDetails]: buying and contacting the seller *)

Definition setPaymentData (d : option PaymentData) (st : ProductDetailsState)
  : ProductDetailsState :=
  {| product := product st; loading := loading st; showPayment := showPayment st;
     paymentData := d; verifying := verifying st;
     directChatUser := directChatUser st |}.

Definition setShowPayment (b : bool) (st : ProductDetailsState)
  : ProductDetailsState :=
  {| product := product st; loading := loading st; showPayment := b;
     paymentData := paymentData st; verifying := verifying st;
     directChatUser := directChatUser st |}.

Definition setDirectChatUser (u : option User) (st : ProductDetailsState)
  : ProductDetailsState :=
  {| product := product st; loading := loading st; showPayment := showPayment st;
     paymentData := paymentData st; verifying := verifying st;
     directChatUser := u |}.

(** ["..." + res.error]: an absent error prints as [undefined]. *)
Definition error_text (r : PaymentRes) : string :=
  match pr_error r with
  | Some e => e
  | None => "undefined"
  end.

Definition handleBuy (st : ProductDetailsState) (user : option User)
  : Async AppService ProductDetailsState unit :=
  match product st, user with
  | Some p, Some _ =>
      finally
        (catching
           (update (setVerifying true) ;;
            res ← call (CreatePayment (price p) ("Order: " ++ title p));
            match pr_success res, pr_data res with
            | true, Some d =>
                update (setPaymentData (Some d)) ;;
                update (setShowPayment true)
            | _, _ => emit (Alert ("Erro ao gerar Pix: " ++ error_text res))
            end)
           (fun _ => emit (Alert "Erro ao processar")))
        (update (setVerifying false))
  | _, _ => done tt
  end.

(** The payment modal is rendered under [showPayment && paymentData]; its
    button is the only place [confirmPayment] is attached to. *)
Definition payment_modal (st : ProductDetailsState) : option PaymentData :=
  if showPayment st then paymentData st else None.

(** The user object [openDirectChat] makes up for the seller; [now] is
    [new Date().toISOString()] at the click. *)
Definition seller_contact (p : Product) (now : string) : User :=
  {| user_id := sellerId p; user_email := "Contato via anúncio";
     user_name := sellerName p; user_role := premium; user_status := active;
     user_avatarUrl := None; user_createdAt := now |}.

Definition openDirectChat (now : string) (st : ProductDetailsState)
  : ProductDetailsState :=
  match product st with
  | Some p => setDirectChatUser (Some (seller_contact p now)) st
  | None => st
  end.

(** ** [CreateAd] *)

Record CreateAdForm := {
  f_title : string;
  f_description : string;
  f_price : string;
  f_city : string;
  f_quantity : string;
  f_pixKey : string;
  f_pixKeyType : PixKeyType
}.

Record CreateAdState := {
  ca_loading : bool;
  ca_formData : CreateAdForm;
  ca_image : option File
}.

Definition ca_setLoading (b : bool) (st : CreateAdState) : CreateAdState :=
  {| ca_loading := b; ca_formData := ca_formData st; ca_image := ca_image st |}.

Section CreateAdPage.
(** The numbers the built-ins [parseFloat] and [parseInt] read off a text. *)
Variable parseFloat : string -> Z.
Variable parseInt : string -> Z.

Definition new_product (form : CreateAdForm) (uploadRes : UploadRes) : NewProduct :=
  {| np_title := f_title form; np_description := f_description form;
     np_price := parseFloat (f_price form); np_city := f_city form;
     np_quantity := parseInt (f_quantity form); np_pixKey := f_pixKey form;
     np_pixKeyType := f_pixKeyType form; np_imageUrl := url uploadRes;
     np_imagePath := path uploadRes; np_deliveryMethod := shipping |}.

Definition CreateAd_handleSubmit (st : CreateAdState) (user : option User)
  : Async AppService CreateAdState unit :=
  emit PreventDefault ;;
  match user, ca_image st with
  | Some u, Some image =>
      update (ca_setLoading true) ;;
      finally
        (catching
           (uploadRes ← call (StorageUploadImage image (user_id u));
            match uploadRes with
            | None => fail {| message := "Upload falhou" |}
            | Some up =>
                call (ProductsCreate (new_product (ca_formData st) up) u) ;;
                emit (Navigate "/feed")
            end)
           (fun e => emit (Alert (message e))))
        (update (ca_setLoading false))
  | _, _ => done tt
  end.
End CreateAdPage.

(** ** [SellerDashboard] and [MyOrdersModal] *)

Inductive DashboardTab := tab_products | tab_orders.

Record SellerDashboardState := {
  sd_tab : DashboardTab;
  sd_products : list Product;
  sd_orders : list Order;
  sd_selectedOrder : option Order
}.

Definition sd_setProducts (ps : list Product) (st : SellerDashboardState)
  : SellerDashboardState :=
  {| sd_tab := sd_tab st; sd_products := ps; sd_orders := sd_orders st;
     sd_selectedOrder := sd_selectedOrder st |}.

(** [handleDelete] of the render in which the list was [products]. *)
Definition handleDelete (products : list Product) (id : string)
  : Async AppService SellerDashboardState unit :=
  ok ← query (WindowConfirm "Excluir este anúncio?");
  if (ok : bool) then
    call (ProductsDelete id) ;;
    update (sd_setProducts (filter (fun p => product_id p <> id) products))
  else done tt.

Record MyOrdersState := {
  mo_orders : list Order;
  mo_loading : bool;
  mo_selectedOrder : option Order
}.

Definition mo_setSelectedOrder (o : option Order) (st : MyOrdersState)
  : MyOrdersState :=
  {| mo_orders := mo_orders st; mo_loading := mo_loading st;
     mo_selectedOrder := o |}.

(** [getForBuyer(user.id).then(({ data }) => { if(data) setOrders(data);
    setLoading(false); })] *)
Definition mo_onOrders (res : SupabaseResponse (list Order)) (st : MyOrdersState)
  : MyOrdersState :=
  {| mo_orders := match data res with Some os => os | None => mo_orders st end;
     mo_loading := false; mo_selectedOrder := mo_selectedOrder st |}.

(** [onClick={() => order.status === 'paid' && setSelectedOrder(order)}] *)
Definition mo_onClick (order : Order) (st : MyOrdersState) : MyOrdersState :=
  if bool_decide (order_status order = paid)
  then mo_setSelectedOrder (Some order) st
  else st.

(** What can happen to the open orders list: the orders arrive, a row is
    clicked, the chat is closed. *)
Inductive my_orders_step : MyOrdersState -> MyOrdersState -> Prop :=
| mo_loaded res st : my_orders_step st (mo_onOrders res st)
| mo_clicked order st : my_orders_step st (mo_onClick order st)
| mo_closed st : my_orders_step st (mo_setSelectedOrder None st).

Definition mo_initial : MyOrdersState :=
  {| mo_orders := []; mo_loading := true; mo_selectedOrder := None |}.

(** ** More scenarios *)

(** A world for the other services that answers from a script and counts
    the calls it served. *)
Record AppScript := {
  session_answer : Settled (option User);
  signIn_answer : Settled (SupabaseResponse SignInData);
  payment_answer : Settled PaymentRes;
  upload_answer : Settled (option UploadRes);
  plain_answer : Settled unit
}.

Definition app_serve (sc : AppScript) (X : Type) (c : AppService X) (n : nat)
  : Settled X * nat :=
  (match c in AppService X return Settled X with
   | AuthGetSession => session_answer sc
   | AuthSignIn _ _ => signIn_answer sc
   | AuthSignOut => plain_answer sc
   | CreatePayment _ _ => payment_answer sc
   | StorageUploadImage _ _ => upload_answer sc
   | ProductsCreate _ _ => plain_answer sc
   | ProductsDelete _ => plain_answer sc
   end, Datatypes.S n).

(** Every service answers; the sign-in is Alice's. *)
Definition all_well : AppScript :=
  {| session_answer := Fulfilled (Some alice);
     signIn_answer :=
       Fulfilled {| data := Some {| signed_user := alice |}; error := None |};
     payment_answer :=
       Fulfilled {| pr_success := true;
                    pr_data := Some {| pd_id := "payA"; qrcodeUrl := "qr.png";
                                       copyPaste := None |};
                    pr_error := None |};
     upload_answer := Fulfilled (Some {| url := "http://img/1"; path := "alice/1" |});
     plain_answer := Fulfilled tt |}.

(** The sign-in is refused with a message; the gateway refuses the intent;
    the upload returns nothing. *)
Definition all_refused : AppScript :=
  {| session_answer := Fulfilled None;
     signIn_answer := Fulfilled {| data := None; error := Some "Invalid login" |};
     payment_answer :=
       Fulfilled {| pr_success := false; pr_data := None;
                    pr_error := Some "gateway down" |};
     upload_answer := Fulfilled None;
     plain_answer := Rejected {| message := "offline" |} |}.

(** Alice's order of Sol's product. *)
Definition sample_order (s : OrderStatus) : Order :=
  {| order_id := "O1"; buyerId := "alice"; buyerName := None;
     order_sellerId := "seller"; productId := "p1"; productTitle := "Bicicleta";
     order_price := 5000; shippingAddress := None; order_status := s;
     order_createdAt := "2024-05-05" |}.

(** A second listing of Sol. *)
Definition second_product : Product :=
  {| product_id := "p2"; title := "Capacete"; description := "Tamanho M";
     price := 900; imageUrl := "helmet.png"; imagePath := None; city := "Recife";
     pixKey := "sol@pix"; pixKeyType := EMAIL; quantity := 4;
     deliveryMethod := pickup; sellerId := "seller"; sellerName := "Sol";
     sellerAvatar := None; product_createdAt := "2024-01-02" |}.

Definition dashboard (ps : list Product) : SellerDashboardState :=
  {| sd_tab := tab_products; sd_products := ps; sd_orders := [];
     sd_selectedOrder := None |}.

Definition ad_form (image : option File) : CreateAdState :=
  {| ca_loading := false;
     ca_formData := {| f_title := "Bicicleta"; f_description := "Aro 29";
                       f_price := "50.00"; f_city := "Recife"; f_quantity := "1";
                       f_pixKey := "sol@pix"; f_pixKeyType := EMAIL |};
     ca_image := image |}.

(** The order is created, then the store goes offline. *)
Definition stock_write_fails : Script :=
  {| status_answer := paid_answer;
     create_answer := Fulfilled {| data := Some (sample_order paid); error := None |};
     other_answer := Rejected {| message := "offline" |} |}.

(** The gateway cannot be reached. *)
Definition gateway_down : Script :=
  {| status_answer := Rejected {| message := "timeout" |};
     create_answer := Rejected {| message := "timeout" |};
     other_answer := Rejected {| message := "timeout" |} |}.

Definition login_form (email password : string) : LoginView :=
  {| lv_auth := signed_out;
     lv_page := {| lp_email := email; lp_password := password; lp_error := "";
                   lp_loading := false |} |}.

(** The product page of a viewer who loaded the product with stock [q] and
    has not asked for a payment yet. *)
Definition product_page (q : Z) : ProductDetailsState :=
  {| product := Some (sample_product q); loading := false; showPayment := false;
     paymentData := None; verifying := false; directChatUser := None |}.

(** The service calls among the entries of a trace. *)
Definition is_call (e : Event) : bool :=
  match e with
  | Called _ => true
  | _ => false
  end.

(** The calls of one confirmation, in the order of the source. *)
Definition saga_calls (pd : PaymentData) (u : User) (p : Product) : list Event :=
  [Called (GetPaymentStatus (pd_id pd));
   Called (OrdersCreate (order_payload u p));
   Called (ProductsUpdateStock (product_id p) (quantity p - 1));
   Called (CreateWithdraw (price p) (pixKey p) (pixKeyType p))].

(** What [login] makes of the answer of [signIn]: the user it signs in, or
    the message it rejects with. *)
Definition signIn_result (a : Settled (SupabaseResponse SignInData))
  : User + string :=
  match a with
  | Rejected e => inr (message e)
  | Fulfilled res =>
      match data res, truthy (error res) with
      | Some d, false => inl (signed_user d)
      | _, _ => inr (or_else (error res) "Login failed")
      end
  end.

(** What [handleBuy] makes of the answer of [createPayment]: the payment it
    puts on the page, or the text it alerts. *)
Definition payment_result (a : Settled PaymentRes) : PaymentData + string :=
  match a with
  | Rejected _ => inr "Erro ao processar"
  | Fulfilled res =>
      match pr_success res, pr_data res with
      | true, Some d => inl d
      | _, _ => inr ("Erro ao gerar Pix: " ++ error_text res)
      end
  end.

(** A row of [direct_messages] the direct chat of [user] with [buyer]
    appends: one from [buyer] to [user] that [user] did not send. *)
Definition incoming (user buyer : User) (row : DirectRow) : Prop :=
  dr_sender_id row = user_id buyer
  /\ dr_receiver_id row = user_id user
  /\ dr_sender_id row <> user_id user.

#[global] Instance EventType_eq_dec : EqDecision EventType.
Proof. solve_decision. Defined.

#[global] Instance incoming_dec user buyer row : Decision (incoming user buyer row).
Proof. unfold incoming. apply _. Defined.

(** * Settlement saga *)

Section Settlement.
Context {W : Type}.
Variable serve : forall X, Service X -> W -> Settled X * W.
Variable browse : forall X, Browser X -> W -> X * W.


Lemma not_success_status res d :
  status_data res = Some d -> status d <> "COMPLETED" -> status d <> "ACTIVE" ->
  is_success_status res = false.
Proof.
  intros Hd Hc Ha. unfold is_success_status, status_is. rewrite Hd.
  apply String.eqb_neq in Hc, Ha. rewrite Hc, Ha. apply andb_false_r.
Qed.

(** C2. When the gateway answers the poll with a status other than
    COMPLETED and ACTIVE, [confirmPayment] makes no further call: the poll is
    the only entry of its trace besides the alert, so no order is created,
    no stock is written and no payout is issued; the world is as the poll
    left it, and the buyer is told "Pagamento ainda não confirmado" with the
    status observed. *)
Theorem confirm_not_yet_paid st user pd p u w res w' d :
  paymentData st = Some pd -> product st = Some p -> user = Some u ->
  serve _ (GetPaymentStatus (pd_id pd)) w = (Fulfilled res, w') ->
  status_data res = Some d ->
  status d <> "COMPLETED" -> status d <> "ACTIVE" ->
  let o := confirm serve browse st user w in
  trace o = [Called (GetPaymentStatus (pd_id pd));
             Noticed (Alert ("Pagamento ainda não confirmado. Status: " ++ status d))]
  /\ world_after o = w'
  /\ state_after o = setVerifying false st
  /\ Forall (fun e => is_order_create e = false /\ is_stock_update e = false
                      /\ is_withdraw e = false) (trace o).
Proof.
  intros Hpd Hp Hu Hs Hd Hc Ha o.
  assert (Ht : trace o = [Called (GetPaymentStatus (pd_id pd));
             Noticed (Alert ("Pagamento ainda não confirmado. Status: " ++ status d))]
          /\ world_after o = w' /\ state_after o = setVerifying false st).
  { subst o. unfold confirm, confirmPayment. rewrite Hpd, Hp, Hu. cbn. rewrite Hs. cbn.
    rewrite (not_success_status res d Hd Hc Ha). cbn.
    unfold status_text. rewrite Hd. repeat split. }
  destruct Ht as (Ht & Hw & Hst). rewrite Ht. repeat split; try assumption.
  repeat constructor.
Qed.

(** C3. When the gateway answers the poll with success and the status
    COMPLETED or ACTIVE, and the three services answer, [confirmPayment]
    issues, in this order: the creation of an order with status [paid]
    carrying the product's title and price as the page holds them, the stock
    write, and the payout of the product's full price to the product's pix
    key; it then announces the confirmation and leaves the page. *)
Theorem confirm_paid_effects_in_order st user pd p u w res w1 created w2 w3 w4 d :
  paymentData st = Some pd -> product st = Some p -> user = Some u ->
  serve _ (GetPaymentStatus (pd_id pd)) w = (Fulfilled res, w1) ->
  success res = true -> status_data res = Some d ->
  status d = "COMPLETED" \/ status d = "ACTIVE" ->
  serve _ (OrdersCreate (order_payload u p)) w1 = (Fulfilled created, w2) ->
  creation_error (Fulfilled created) = None ->
  serve _ (ProductsUpdateStock (product_id p) (quantity p - 1)) w2
    = (Fulfilled tt, w3) ->
  serve _ (CreateWithdraw (price p) (pixKey p) (pixKeyType p)) w3
    = (Fulfilled tt, w4) ->
  let o := confirm serve browse st user w in
  trace o =
    [Called (GetPaymentStatus (pd_id pd));
     Called (OrdersCreate {| no_buyerId := user_id u; no_sellerId := sellerId p;
                             no_productId := product_id p;
                             no_productTitle := title p; no_price := price p;
                             no_status := paid |});
     Called (ProductsUpdateStock (product_id p) (quantity p - 1));
     Called (CreateWithdraw (price p) (pixKey p) (pixKeyType p));
     Noticed (Alert "Pagamento confirmado! Pedido criado.");
     Noticed (Navigate "/feed")]
  /\ world_after o = w4
  /\ result o = Fulfilled tt.
Proof.
  intros Hpd Hp Hu Hs Hok Hd Hst Hc Hce Hq Hw o.
  subst o. unfold confirm, confirmPayment. rewrite Hpd, Hp, Hu. cbn. rewrite Hs. cbn.
  assert (Hsucc : is_success_status res = true).
  { unfold is_success_status, status_is. rewrite Hok, Hd.
    destruct Hst as [-> | ->]; reflexivity. }
  rewrite Hsucc. cbn. rewrite Hc. cbn.
  cbn in Hce.
  destruct (truthy (error created) || negb (bool_decide (is_Some (data created))));
    [discriminate |].
  cbn. rewrite Hq. cbn. rewrite Hw. cbn. repeat split.
Qed.

(** C4. When the creation of the order record fails (the call is
    rejected, or it answers with an error or without a row),
    [confirmPayment] stops there: its trace ends with the creation call and
    the error alert, so neither the stock write nor the payout is issued and
    the world is as the failed call left it.  The page state is back to what
    it was with [verifying] off, and invoking [confirmPayment] again runs
    the same handler. *)
Theorem confirm_abort_on_create_failure st user pd p u w res w1 a w2 msg :
  paymentData st = Some pd -> product st = Some p -> user = Some u ->
  serve _ (GetPaymentStatus (pd_id pd)) w = (Fulfilled res, w1) ->
  is_success_status res = true ->
  serve _ (OrdersCreate (order_payload u p)) w1 = (a, w2) ->
  creation_error a = Some msg ->
  let o := confirm serve browse st user w in
  trace o = [Called (GetPaymentStatus (pd_id pd));
             Called (OrdersCreate (order_payload u p));
             Noticed (Alert ("Erro ao verificar: " ++ msg))]
  /\ Forall (fun e => is_stock_update e = false /\ is_withdraw e = false) (trace o)
  /\ world_after o = w2
  /\ state_after o = setVerifying false st
  /\ confirmPayment (state_after o) user = confirmPayment st user.
Proof.
  intros Hpd Hp Hu Hs Hsucc Hc Hce o.
  assert (Ht : trace o = [Called (GetPaymentStatus (pd_id pd));
             Called (OrdersCreate (order_payload u p));
             Noticed (Alert ("Erro ao verificar: " ++ msg))]
          /\ world_after o = w2 /\ state_after o = setVerifying false st).
  { subst o. unfold confirm, confirmPayment. rewrite Hpd, Hp, Hu. cbn. rewrite Hs. cbn.
    rewrite Hsucc. cbn. rewrite Hc. cbn.
    destruct a as [created | e]; cbn in Hce |- *.
    - destruct (truthy (error created)
                || negb (bool_decide (is_Some (data created)))); [| discriminate].
      injection Hce as <-. cbn. repeat split.
    - injection Hce as <-. repeat split. }
  destruct Ht as (Ht & Hw & Hst). rewrite Ht, Hst.
  repeat split; try assumption.
  repeat constructor.
Qed.

(** In every world, whatever the services answer, a stock write that
    [confirmPayment] issues asks for the quantity of the page's product
    minus one. *)
Lemma confirm_stock_updates st user p w :
  product st = Some p ->
  Forall (fun e => is_stock_update e = true ->
                   e = Called (ProductsUpdateStock (product_id p) (quantity p - 1)))
         (trace (confirm serve browse st user w)).
Proof.
  intros Hp. unfold confirm, confirmPayment. rewrite Hp.
  destruct (paymentData st) as [pd |]; [| constructor].
  destruct user as [u |]; [| constructor].
  cbn.
  destruct (serve _ (GetPaymentStatus (pd_id pd)) w) as [[res | e] w1]; cbn;
    [| repeat constructor; discriminate].
  destruct (is_success_status res); cbn; [| repeat constructor; discriminate].
  destruct (serve _ (OrdersCreate (order_payload u p)) w1) as [[cr | e] w2]; cbn;
    [| repeat constructor; discriminate].
  destruct (truthy (error cr) || negb (bool_decide (is_Some (data cr)))); cbn;
    [repeat constructor; discriminate |].
  destruct (serve _ (ProductsUpdateStock (product_id p) (quantity p - 1)) w2)
    as [[[] | e] w3]; cbn;
    [| repeat constructor; cbn; intros; try discriminate; reflexivity].
  destruct (serve _ (CreateWithdraw (price p) (pixKey p) (pixKeyType p)) w3)
    as [[[] | e] w4]; cbn;
    repeat constructor; cbn; intros; try discriminate; reflexivity.
Qed.
End Settlement.

(** ** The stock step on the modelled store *)

(** What a confirmation does to the modelled store. *)
Lemma backend_confirm b st user pd p u row :
  paymentData st = Some pd -> product st = Some p -> user = Some u ->
  products b !! product_id p = Some row ->
  let o := confirm backend_serve (backend_browse true) st user b in
  if is_success_status (getPaymentStatus (pd_id pd) b) then
    if (0 <? quantity row)%Z then
      products (world_after o)
      = <[product_id p := with_quantity (quantity row - 1) row]> (products b)
      /\ Noticed (Alert "Pagamento confirmado! Pedido criado.") ∈ trace o
    else
      products (world_after o) = products b
      /\ trace o = [Called (GetPaymentStatus (pd_id pd));
                    Called (OrdersCreate (order_payload u p));
                    Called (ProductsUpdateStock (product_id p) (quantity p - 1));
                    Noticed (Alert "Erro ao verificar: SoldOut")]
  else products (world_after o) = products b.
Proof.
  intros Hpd Hp Hu Hrow o. subst o.
  unfold confirm, confirmPayment. rewrite Hpd, Hp, Hu. cbn.
  destruct (is_success_status (getPaymentStatus (pd_id pd) b)); cbn;
    [| reflexivity].
  unfold updateStock. cbn. rewrite Hrow. unfold guarded_decrement.
  destruct (0 <? quantity row)%Z; cbn.
  - split; [reflexivity |]. apply list_elem_of_In. cbn. tauto.
  - split; reflexivity.
Qed.

(** Whatever page state and user a confirmation runs with, it keeps the
    stock of the modelled store non-negative. *)
Lemma confirm_keeps_stock_nonnegative b st user :
  stock_nonnegative b ->
  stock_nonnegative
    (world_after (confirm backend_serve (backend_browse true) st user b)).
Proof.
  intros Hinv. unfold confirm, confirmPayment.
  destruct (paymentData st) as [pd |]; [| exact Hinv].
  destruct (product st) as [p |]; [| exact Hinv].
  destruct user as [u |]; [| exact Hinv].
  cbn.
  destruct (is_success_status (getPaymentStatus (pd_id pd) b)); cbn;
    [| exact Hinv].
  unfold updateStock. cbn.
  destruct (products b !! product_id p) as [row |] eqn:Hrow; cbn;
    [| exact Hinv].
  unfold guarded_decrement.
  destruct (0 <? quantity row)%Z eqn:Hq; cbn; [| exact Hinv].
  apply Z.ltb_lt in Hq. intros id r. cbn.
  destruct (decide (id = product_id p)) as [-> | Hne].
  - rewrite lookup_insert_eq. intros [= <-]. cbn. lia.
  - rewrite lookup_insert_ne by congruence. apply Hinv.
Qed.


(** * Order conversation *)

(** A text of a no-break space (U+00A0), a zero-width no-break space
    (U+FEFF), an ideographic space (U+3000), a line separator (U+2028), a
    tab and a space is blank for [trim]; a text with a letter between
    spaces is not, and neither is a zero-width space (U+200B), which is no
    white space of ECMAScript. *)
Example trim_unicode_white_space :
  let byte := Ascii.ascii_of_nat in
  trims_to_empty
    (String (byte 194%nat) (String (byte 160%nat)
    (String (byte 239%nat) (String (byte 187%nat) (String (byte 191%nat)
    (String (byte 227%nat) (String (byte 128%nat) (String (byte 128%nat)
    (String (byte 226%nat) (String (byte 128%nat) (String (byte 168%nat)
    (String (byte 9%nat) " ")))))))))))) = true
  /\ trims_to_empty " oi " = false
  /\ trims_to_empty
       (String (byte 226%nat) (String (byte 128%nat) (String (byte 139%nat) ""))) = false.
Proof. repeat split; reflexivity. Qed.

Lemma filter_none {A} (P : A -> Prop) `{!forall x, Decision (P x)} (l : list A) :
  (forall x, x ∈ l -> ~ P x) -> filter P l = [].
Proof.
  induction l as [| a l IH]; intros Hout; [reflexivity |].
  rewrite filter_cons_False by (apply Hout; left).
  apply IH. intros x Hx. apply Hout. right. exact Hx.
Qed.

Lemma ChatModal_onFeed_deletes events log :
  Forall (fun e => eventType e = DELETE) events ->
  ChatModal_onFeed events log
  = filter (fun m => Forall (fun e => cm_id m <> mr_id (old e)) events) log.
Proof.
  unfold ChatModal_onFeed. revert log.
  induction events as [| e events IH]; intros log Hdel; cbn.
  - induction log as [| m log IHl]; [reflexivity |].
    rewrite filter_cons_True by constructor. f_equal. exact IHl.
  - inversion Hdel as [| ? ? He Hrest]; subst.
    rewrite IH by assumption. unfold ChatModal.onPayload. rewrite He.
    rewrite list_filter_filter. apply list_filter_iff.
    intros m. rewrite Forall_cons. tauto.
Qed.

(** C6 (as amended). A remote DELETE event removes from the log the
    messages whose id is the id of the deleted row, and only those: every
    other message stays, in place.  The log is empty once the feed has
    delivered a DELETE event for the id of each of its messages. *)
Theorem ChatModal_delete_is_per_message payload prev events :
  eventType payload = DELETE ->
  Forall (fun e => eventType e = DELETE) events ->
  (forall m, m ∈ prev -> exists e, e ∈ events /\ mr_id (old e) = cm_id m) ->
  ChatModal.onPayload payload prev
    = filter (fun m => cm_id m <> mr_id (old payload)) prev
  /\ (forall m, m ∈ ChatModal.onPayload payload prev
                <-> m ∈ prev /\ cm_id m <> mr_id (old payload))
  /\ ChatModal_onFeed events prev = [].
Proof.
  intros Hdel Hall Hcover.
  assert (Heq : ChatModal.onPayload payload prev
                = filter (fun m => cm_id m <> mr_id (old payload)) prev).
  { unfold ChatModal.onPayload. rewrite Hdel. reflexivity. }
  split; [exact Heq |]. split.
  - intros m. rewrite Heq, list_elem_of_filter. tauto.
  - rewrite ChatModal_onFeed_deletes by assumption.
    apply filter_none. intros m Hm Hkeep.
    destruct (Hcover m Hm) as (e & He & Hid).
    rewrite Forall_forall in Hkeep. apply (Hkeep e He). symmetry. exact Hid.
Qed.

(** C6, counterexample. Two messages of order O1 are in the log; the
    DELETE event for the first leaves the second, a message of O1, in the
    log. *)
Lemma ChatModal_delete_leaves_order_messages :
  ~ purges_order (delete_event "m1" "O1")
      [order_message "m1" "O1" "seller" "shipped today";
       order_message "m2" "O1" "alice" "thanks"].
Proof.
  unfold purges_order. intros H.
  assert (Hlog : ChatModal.onPayload (delete_event "m1" "O1")
                   [order_message "m1" "O1" "seller" "shipped today";
                    order_message "m2" "O1" "alice" "thanks"]
                 = [order_message "m2" "O1" "alice" "thanks"])
    by (vm_compute; reflexivity).
  rewrite Hlog in H. inversion H as [| ? ? Hne _]. apply Hne. reflexivity.
Qed.

(** * Direct conversation *)

(** A feed event never adds a message of the local user to the log. *)
Lemma onInsert_keeps_own user buyer payload prev :
  filter (fun m => dm_senderId m = user_id user)
         (DirectChatModal.onInsert user buyer payload prev)
  = filter (fun m => dm_senderId m = user_id user) prev.
Proof.
  unfold DirectChatModal.onInsert.
  destruct (DirectChatModal.isRelevant user buyer (new payload)); [| reflexivity].
  destruct (String.eqb (dr_sender_id (new payload)) (user_id user)) eqn:Hme;
    cbn; [reflexivity |].
  apply String.eqb_neq in Hme.
  rewrite filter_app, filter_cons_False, filter_nil, app_nil_r by exact Hme.
  reflexivity.
Qed.

Lemma onFeed_keeps_own user buyer events log :
  filter (fun m => dm_senderId m = user_id user)
         (DirectChatModal_onFeed user buyer events log)
  = filter (fun m => dm_senderId m = user_id user) log.
Proof.
  unfold DirectChatModal_onFeed. revert log.
  induction events as [| e events IH]; intros log; cbn; [reflexivity |].
  rewrite IH. apply onInsert_keeps_own.
Qed.

(** The insert event of a message the local user sent is dropped. *)
Lemma onInsert_own_echo user buyer payload prev :
  dr_sender_id (new payload) = user_id user ->
  DirectChatModal.onInsert user buyer payload prev = prev.
Proof.
  intros Hme. unfold DirectChatModal.onInsert. rewrite Hme, String.eqb_refl.
  cbn. destruct (DirectChatModal.isRelevant user buyer (new payload)); reflexivity.
Qed.



(** The log after a submit, in every world: the optimistic copy is there
    however the write settles, and nothing else was touched. *)
Lemma handleSend_log {W : Type} (serve : forall X, Service X -> W -> Settled X * W)
    (browse : forall X, Browser X -> W -> X * W) (w : W)
    buyer user onMessageSent st :
  trims_to_empty (ds_newMessage st) = false ->
  let id := browse _ MathRandomToString w in
  let createdAt := browse _ DateNowISO id.2 in
  ds_messages (state_after (run serve browse
     (DirectChatModal.handleSend buyer (Some user) onMessageSent st) st w))
  = (ds_messages st
     ++ [DirectChatModal.optimisticMsg user buyer id.1 (ds_newMessage st)
           createdAt.1])%list.
Proof.
  intros Hblank. unfold DirectChatModal.handleSend. rewrite Hblank. cbn.
  destruct (serve _ (DirectChatSendMessage (user_id user) (user_id buyer)
                       (ds_newMessage st))
              (browse _ DateNowISO (browse _ MathRandomToString w).2).2)
    as [[[] | e] w']; [destruct onMessageSent |]; reflexivity.
Qed.

(** C10. When the write of a submitted message is rejected, the handler
    logs the error to the console and completes normally; the log still ends
    with the optimistic copy: it is not rolled back. *)
Theorem direct_send_failure_keeps_echo
    {W : Type} (serve : forall X, Service X -> W -> Settled X * W)
    (browse : forall X, Browser X -> W -> X * W) (w : W)
    buyer user onMessageSent st id w1 createdAt w2 e w3 :
  trims_to_empty (ds_newMessage st) = false ->
  browse _ MathRandomToString w = (id, w1) ->
  browse _ DateNowISO w1 = (createdAt, w2) ->
  serve _ (DirectChatSendMessage (user_id user) (user_id buyer) (ds_newMessage st)) w2
    = (Rejected e, w3) ->
  let o := run serve browse
             (DirectChatModal.handleSend buyer (Some user) onMessageSent st) st w in
  ds_messages (state_after o)
    = (ds_messages st
       ++ [DirectChatModal.optimisticMsg user buyer id (ds_newMessage st) createdAt])%list
  /\ trace o = [Noticed PreventDefault; Asked MathRandomToString; Asked DateNowISO;
                Called (DirectChatSendMessage (user_id user) (user_id buyer)
                          (ds_newMessage st));
                Noticed (ConsoleError e)]
  /\ result o = Fulfilled tt
  /\ ds_sending (state_after o) = false.
Proof.
  intros Hblank Hid Hnow Hsend o. subst o.
  unfold DirectChatModal.handleSend. rewrite Hblank. cbn.
  rewrite Hid. cbn. rewrite Hnow. cbn. rewrite Hsend. cbn.
  repeat split.
Qed.

Lemma between_optimistic user buyer id text createdAt :
  between user buyer (DirectChatModal.optimisticMsg user buyer id text createdAt).
Proof. left. split; reflexivity. Qed.

Lemma onInsert_between user buyer payload prev :
  Forall (between user buyer) prev ->
  Forall (between user buyer) (DirectChatModal.onInsert user buyer payload prev).
Proof.
  intros Hprev. unfold DirectChatModal.onInsert.
  destruct (DirectChatModal.isRelevant user buyer (new payload)) eqn:Hrel;
    [| exact Hprev].
  destruct (negb _); [| exact Hprev].
  apply Forall_app. split; [exact Hprev |]. constructor; [| constructor].
  unfold DirectChatModal.isRelevant in Hrel.
  apply orb_true_iff in Hrel. unfold between. cbn.
  destruct Hrel as [Hrel | Hrel]; apply andb_true_iff in Hrel;
    destruct Hrel as [Hs Hr]; apply String.eqb_eq in Hs, Hr; tauto.
Qed.

Lemma direct_step_between user buyer st st' :
  direct_step user buyer st st' ->
  Forall (between user buyer) (ds_messages st) ->
  Forall (between user buyer) (ds_messages st').
Proof.
  intros Hstep Hinv. destruct Hstep as [res st Hsnap | payload st | text st
                                        | W serve browse w oms st].
  - cbn. unfold DirectChatModal.onSnapshot.
    destruct (data res) as [ms |] eqn:Hd; [apply Hsnap; reflexivity | exact Hinv].
  - cbn. apply onInsert_between. exact Hinv.
  - exact Hinv.
  - destruct (trims_to_empty (ds_newMessage st)) eqn:Hblank.
    + unfold DirectChatModal.handleSend. rewrite Hblank. exact Hinv.
    + rewrite handleSend_log by exact Hblank.
      apply Forall_app. split; [exact Hinv |].
      constructor; [apply between_optimistic | constructor].
Qed.

(** C8. Along every run of an open direct conversation of [user] with
    [buyer] (snapshot arrivals, feed events, edits and submits, in any
    order), every message in the log has the two of them as sender and
    receiver, one way or the other: a feed event is appended only if it is
    from [buyer] to [user], and a submit appends a message from [user] to
    [buyer]. *)
Theorem direct_log_between_pair user buyer st st' :
  rtc (direct_step user buyer) st st' ->
  Forall (between user buyer) (ds_messages st) ->
  Forall (between user buyer) (ds_messages st')
  /\ (forall payload prev,
        DirectChatModal.onInsert user buyer payload prev <> prev ->
        dr_sender_id (new payload) = user_id buyer
        /\ dr_receiver_id (new payload) = user_id user)
  /\ (forall id text createdAt,
        between user buyer (DirectChatModal.optimisticMsg user buyer id text createdAt)).
Proof.
  intros Hrun Hinv. split; [| split].
  - induction Hrun as [st | st mid st' Hstep _ IH]; [exact Hinv |].
    apply IH. eapply direct_step_between; eassumption.
  - intros payload prev Hchanged. unfold DirectChatModal.onInsert in Hchanged.
    destruct (DirectChatModal.isRelevant user buyer (new payload)) eqn:Hrel;
      [| contradiction].
    destruct (String.eqb (dr_sender_id (new payload)) (user_id user)) eqn:Hme;
      cbn in Hchanged; [contradiction |].
    unfold DirectChatModal.isRelevant in Hrel. rewrite Hme in Hrel. cbn in Hrel.
    apply andb_true_iff in Hrel. destruct Hrel as [Hs Hr].
    apply String.eqb_eq in Hs, Hr. tauto.
  - apply between_optimistic.
Qed.

(** * Order lifecycle *)

Lemma click_spec c b :
  click c b
  = if ChatModal.isSeller (viewed c) (viewer c) && accepted c
    then markDelivered (order_id (viewed c)) b
    else b.
Proof.
  unfold click, click_outcome, ChatModal.clickMarkDelivered.
  destruct (ChatModal.isSeller (viewed c) (viewer c)); [| reflexivity].
  destruct (accepted c); reflexivity.
Qed.

Lemma status_of_markDelivered orderId b id :
  status_of (markDelivered orderId b) id
  = if decide (orderId = id)
    then (fun _ => delivered) <$> status_of b id
    else status_of b id.
Proof.
  unfold status_of, markDelivered. cbn.
  destruct (decide (orderId = id)) as [<- | Hne].
  - rewrite lookup_alter_eq. destruct (orders b !! orderId); reflexivity.
  - rewrite lookup_alter_ne by exact Hne. reflexivity.
Qed.

(** A click changes a status only from [paid] to [delivered], and only when
    the viewer is the seller of the order viewed and accepted the dialog. *)
Lemma click_status c b id :
  status_of (click c b) id <> status_of b id ->
  status_of b id = Some paid
  /\ status_of (click c b) id = Some delivered
  /\ ChatModal.isSeller (viewed c) (viewer c) = true
  /\ accepted c = true
  /\ id = order_id (viewed c).
Proof.
  rewrite click_spec.
  destruct (ChatModal.isSeller (viewed c) (viewer c)); [| intros []; reflexivity].
  destruct (accepted c); [| intros []; reflexivity].
  cbn. rewrite status_of_markDelivered.
  destruct (decide (order_id (viewed c) = id)) as [<- |]; [| intros []; reflexivity].
  destruct (status_of b (order_id (viewed c))) as [[] |]; cbn; intros Hne;
    try (exfalso; apply Hne; reflexivity).
  repeat split.
Qed.

Lemma click_keeps_delivered c b id :
  status_of b id = Some delivered -> status_of (click c b) id = Some delivered.
Proof.
  intros Hd. destruct (decide (status_of (click c b) id = status_of b id)) as [-> | Hne];
    [exact Hd |].
  apply click_status in Hne. destruct Hne as (Hp & _). congruence.
Qed.

Lemma changes_history_cons id c cs b :
  changes (history id b (c :: cs))
  = ((if decide (status_of b id = status_of (click c b) id) then 0 else 1)
     + changes (history id (click c b) cs))%nat.
Proof. destruct cs; reflexivity. Qed.

Lemma history_delivered id cs b :
  status_of b id = Some delivered ->
  Forall (eq (Some delivered)) (history id b cs) /\ changes (history id b cs) = 0%nat.
Proof.
  revert b. induction cs as [| c cs IH]; intros b Hd.
  - cbn. split; [repeat constructor; congruence | reflexivity].
  - pose proof (click_keeps_delivered c b id Hd) as Hd'.
    destruct (IH (click c b) Hd') as [Hall Hch].
    split; [cbn; constructor; [congruence | exact Hall] |].
    rewrite changes_history_cons, Hch, decide_True by congruence. reflexivity.
Qed.

Lemma history_changes id cs b : (changes (history id b cs) <= 1)%nat.
Proof.
  revert b. induction cs as [| c cs IH]; intros b; [cbn; lia |].
  rewrite changes_history_cons.
  destruct (decide (status_of b id = status_of (click c b) id)) as [| Hne].
  - specialize (IH (click c b)). lia.
  - assert (Hd : status_of (click c b) id = Some delivered).
    { apply (click_status c b id). congruence. }
    destruct (history_delivered id cs (click c b) Hd) as [_ ->]. lia.
Qed.

Lemma conversation_purged orderId b :
  conversation (markDelivered orderId b) orderId = [].
Proof.
  unfold conversation, markDelivered. cbn.
  apply filter_none. intros m Hm. apply list_elem_of_filter in Hm. tauto.
Qed.

(** C7. On the modelled store, along every run of clicks on the
    delivery button by any viewers of any orders: a click changes the status
    of an order only from [paid] to [delivered], and only when the viewer is
    the seller named in the order and accepted the confirmation dialog; a
    delivered order stays delivered; the status of an order changes at most
    once.  A confirmed click of the seller asks for the confirmation, marks
    the order delivered and closes the chat: the stored status is
    [delivered] and the store holds no message of the order.  A declined
    dialog changes nothing. *)
Theorem order_lifecycle b c cs id :
  (status_of (click c b) id <> status_of b id ->
     status_of b id = Some paid
     /\ status_of (click c b) id = Some delivered
     /\ ChatModal.isSeller (viewed c) (viewer c) = true
     /\ accepted c = true
     /\ id = order_id (viewed c))
  /\ (status_of b id = Some delivered ->
      Forall (eq (Some delivered)) (history id b cs))
  /\ (changes (history id b cs) <= 1)%nat
  /\ (ChatModal.isSeller (viewed c) (viewer c) = true -> accepted c = true ->
      trace (click_outcome c b)
        = [Asked (WindowConfirm ChatModal.confirm_text);
           Called (OrdersMarkDelivered (order_id (viewed c)));
           Noticed OnClose]
      /\ status_of (click c b) (order_id (viewed c))
         = (fun _ => delivered) <$> status_of b (order_id (viewed c))
      /\ conversation (click c b) (order_id (viewed c)) = [])
  /\ (accepted c = false -> click c b = b).
Proof.
  split; [apply click_status |].
  split; [intros Hd; apply history_delivered; exact Hd |].
  split; [apply history_changes |].
  split.
  - intros Hs Ha. split.
    + unfold click_outcome, ChatModal.clickMarkDelivered. rewrite Hs, Ha. reflexivity.
    + rewrite click_spec, Hs, Ha. cbn. rewrite status_of_markDelivered.
      rewrite decide_True by reflexivity. split; [reflexivity |].
      apply conversation_purged.
  - intros Ha. rewrite click_spec, Ha, andb_false_r. reflexivity.
Qed.

(** * Subscriptions *)

Section Release.
Context {S Row : Type}.
Implicit Types (c : Client S Row) (pg : Page S Row).

Lemma removeChannel_idempotent channel c :
  removeChannel channel (removeChannel channel c) = removeChannel channel c.
Proof.
  unfold removeChannel. cbn. f_equal.
  rewrite list_filter_filter. apply list_filter_iff. tauto.
Qed.

Lemma filter_all {A} (P : A -> Prop) `{!forall x, Decision (P x)} (l : list A) :
  Forall P l -> filter P l = l.
Proof.
  induction 1 as [| a l Ha _ IH]; [reflexivity |].
  rewrite filter_cons_True by exact Ha. f_equal. exact IH.
Qed.

(** Removing the channel an effect just subscribed gives back the list the
    effect started from. *)
Lemma subscribe_removeChannel name view flt cb c :
  well_formed c ->
  channels (removeChannel (subscribe name view flt cb c).1
              (subscribe name view flt cb c).2)
  = channels c.
Proof.
  intros Hwf. cbn. rewrite filter_app, filter_cons_False, filter_nil, app_nil_r.
  - apply filter_all. eapply Forall_impl; [exact Hwf |]. cbn. intros ch Hlt. lia.
  - cbn. intros Hne. apply Hne. reflexivity.
Qed.

Lemma cycle_channels name view flt cb pg :
  well_formed (client pg) ->
  channels (client (cycle name view flt cb pg)) = channels (client pg)
  /\ well_formed (client (cycle name view flt cb pg))
  /\ views (cycle name view flt cb pg) = views pg.
Proof.
  intros Hwf. unfold cycle, effect, cleanup.
  pose proof (subscribe_removeChannel name view flt cb (client pg) Hwf) as Heq.
  cbn in Heq |- *. split; [exact Heq |]. split; [| reflexivity].
  unfold well_formed. cbn. rewrite Heq.
  eapply Forall_impl; [exact Hwf |]. cbn. intros ch Hlt. lia.
Qed.

Lemma cycles_channels name view flt cb n pg :
  well_formed (client pg) ->
  channels (client (Nat.iter n (cycle name view flt cb) pg)) = channels (client pg)
  /\ well_formed (client (Nat.iter n (cycle name view flt cb) pg)).
Proof.
  intros Hwf. induction n as [| n [IHc IHw]]; [split; [reflexivity | exact Hwf] |].
  rewrite Nat.iter_succ.
  destruct (cycle_channels name view flt cb _ IHw) as (Hc & Hw & _).
  split; [rewrite Hc; exact IHc | exact Hw].
Qed.

(** A feed event does not reach a view no channel calls back into. *)
Lemma deliver_unsubscribed view payload pg :
  unsubscribed view (client pg) ->
  views (deliver payload pg) !! view = views pg !! view
  /\ client (deliver payload pg) = client pg.
Proof.
  intros Hun. split; [| reflexivity]. unfold deliver. cbn.
  generalize (views pg). unfold unsubscribed in Hun.
  induction Hun as [| ch chs Hne _ IH]; intros vs; [reflexivity |].
  cbn. rewrite IH. destruct (accepts ch payload); [| reflexivity].
  apply lookup_alter_ne. exact Hne.
Qed.

Lemma feed_unsubscribed view payloads pg :
  unsubscribed view (client pg) ->
  views (foldl (fun p payload => deliver payload p) pg payloads) !! view
  = views pg !! view.
Proof.
  revert pg. induction payloads as [| payload payloads IH]; intros pg Hun;
    [reflexivity |].
  cbn. destruct (deliver_unsubscribed view payload pg Hun) as [Hv Hc].
  rewrite IH by (rewrite Hc; exact Hun). exact Hv.
Qed.

(** What closing a view that was opened on [before] leaves behind. *)
Lemma effect_cleanup_released name view flt cb (before : Page S Row) :
  well_formed (client before) ->
  unsubscribed view (client before) ->
  released view before (effect name view flt cb before).1
    (effect name view flt cb before).2.
Proof.
  intros Hwf Hun. unfold released.
  pose proof (subscribe_removeChannel name view flt cb (client before) Hwf) as Heq.
  assert (Hun' : unsubscribed view
                   (client (cleanup (effect name view flt cb before).1
                              (effect name view flt cb before).2))).
  { unfold unsubscribed. cbn in Heq |- *. rewrite Heq. exact Hun. }
  split; [exact Heq |]. split.
  - unfold cleanup. cbn. f_equal.
    apply (removeChannel_idempotent (next_ref (client before))).
  - split; [exact Hun' |]. intros payloads.
    rewrite feed_unsubscribed by exact Hun'. reflexivity.
Qed.
End Release.


(** * The statements on concrete data *)


(** Alice confirms while the gateway still reports PENDING. *)
Lemma confirm_not_yet_paid_witness :
  trace (confirm backend_serve (backend_browse true)
           (payment_page 1 "payC") (Some alice) shop)
  = [Called (GetPaymentStatus "payC");
     Noticed (Alert "Pagamento ainda não confirmado. Status: PENDING")].
Proof.
  refine (proj1
    (confirm_not_yet_paid backend_serve (backend_browse true)
       (payment_page 1 "payC") (Some alice)
       {| pd_id := "payC"; qrcodeUrl := "qr.png"; copyPaste := None |}
       (sample_product 1) alice shop
       {| success := true; status_data := Some {| status := "PENDING" |} |}
       shop {| status := "PENDING" |}
       eq_refl eq_refl eq_refl _ eq_refl _ _)).
  - vm_compute. reflexivity.
  - discriminate.
  - discriminate.
Defined.

(** Alice confirms a settled payment in a world where every call answers. *)
Lemma confirm_paid_effects_in_order_witness :
  trace (confirm (scripted_serve
                    {| status_answer := paid_answer;
                       create_answer :=
                         Fulfilled {| data := Some (orders_create
                                        (order_payload alice (sample_product 1)) shop).1;
                                      error := None |};
                       other_answer := Fulfilled tt |})
                 (scripted_browse true)
                 (payment_page 1 "payA") (Some alice) 0%nat)
  = [Called (GetPaymentStatus "payA");
     Called (OrdersCreate {| no_buyerId := "alice"; no_sellerId := "seller";
                             no_productId := "p1"; no_productTitle := "Bicicleta";
                             no_price := 5000; no_status := paid |});
     Called (ProductsUpdateStock "p1" 0);
     Called (CreateWithdraw 5000 "sol@pix" EMAIL);
     Noticed (Alert "Pagamento confirmado! Pedido criado.");
     Noticed (Navigate "/feed")].
Proof.
  refine (proj1
    (confirm_paid_effects_in_order _ (scripted_browse true)
       (payment_page 1 "payA") (Some alice)
       {| pd_id := "payA"; qrcodeUrl := "qr.png"; copyPaste := None |}
       (sample_product 1) alice 0%nat
       {| success := true; status_data := Some {| status := "COMPLETED" |} |}
       1%nat
       {| data := Some (orders_create
                          (order_payload alice (sample_product 1)) shop).1;
          error := None |}
       2%nat 3%nat 4%nat {| status := "COMPLETED" |}
       eq_refl eq_refl eq_refl eq_refl eq_refl eq_refl _ eq_refl eq_refl
       eq_refl eq_refl)).
  left. reflexivity.
Defined.

(** Alice confirms a settled payment while the store refuses the insert:
    two calls were served, the poll and the creation. *)
Lemma confirm_abort_on_create_failure_witness :
  trace (confirm (scripted_serve store_down) (scripted_browse true)
           (payment_page 1 "payA") (Some alice) 0%nat)
  = [Called (GetPaymentStatus "payA");
     Called (OrdersCreate (order_payload alice (sample_product 1)));
     Noticed (Alert "Erro ao verificar: insert failed")]
  /\ world_after (confirm (scripted_serve store_down) (scripted_browse true)
                    (payment_page 1 "payA") (Some alice) 0%nat) = 2%nat.
Proof.
  pose proof
    (confirm_abort_on_create_failure (scripted_serve store_down)
       (scripted_browse true) (payment_page 1 "payA") (Some alice)
       {| pd_id := "payA"; qrcodeUrl := "qr.png"; copyPaste := None |}
       (sample_product 1) alice 0%nat
       {| success := true; status_data := Some {| status := "COMPLETED" |} |}
       1%nat (Fulfilled {| data := None; error := Some "insert failed" |}) 2%nat
       "insert failed"
       eq_refl eq_refl eq_refl eq_refl eq_refl eq_refl eq_refl) as H.
  split; [exact (proj1 H) | exact (proj1 (proj2 (proj2 H)))].
Defined.


(** Two messages, and the two DELETE events of the purge. *)
Lemma ChatModal_delete_is_per_message_witness :
  ChatModal_onFeed [delete_event "m2" "O1"; delete_event "m1" "O1"]
    [order_message "m1" "O1" "seller" "shipped today";
     order_message "m2" "O1" "alice" "thanks"]
  = [].
Proof.
  refine (proj2 (proj2
    (ChatModal_delete_is_per_message (delete_event "m1" "O1")
       [order_message "m1" "O1" "seller" "shipped today";
        order_message "m2" "O1" "alice" "thanks"]
       [delete_event "m2" "O1"; delete_event "m1" "O1"]
       eq_refl _ _))).
  - repeat constructor.
  - intros m Hm. apply list_elem_of_In in Hm. cbn in Hm.
    destruct Hm as [<- | [<- | []]].
    + exists (delete_event "m1" "O1"). split; [| reflexivity].
      apply list_elem_of_In. cbn. tauto.
    + exists (delete_event "m2" "O1"). split; [| reflexivity].
      apply list_elem_of_In. cbn. tauto.
Defined.

(** A message of Sol to Alice arrives on Alice's open chat with Sol. *)
Lemma direct_log_between_pair_witness :
  Forall (between alice sol)
    (ds_messages
       (ds_setMessages
          (DirectChatModal.onInsert alice sol (insert_event "d1" "seller" "alice" "ola"))
          (typing ""))).
Proof.
  refine (proj1
    (direct_log_between_pair alice sol (typing "")
       (ds_setMessages
          (DirectChatModal.onInsert alice sol (insert_event "d1" "seller" "alice" "ola"))
          (typing ""))
       _ _)).
  - apply rtc_once. apply step_insert.
  - constructor.
Defined.


(** Alice sends "oi" to Sol while the store is offline. *)
Lemma direct_send_failure_keeps_echo_witness :
  ds_messages (state_after (run (scripted_serve write_fails) (scripted_browse true)
                 (DirectChatModal.handleSend sol (Some alice) false (typing "oi"))
                 (typing "oi") 0%nat))
  = [DirectChatModal.optimisticMsg alice sol "0.42" "oi" "2024-05-05T12:00:00.000Z"].
Proof.
  exact (proj1
    (direct_send_failure_keeps_echo (scripted_serve write_fails)
       (scripted_browse true) 0%nat sol alice false (typing "oi")
       "0.42" 0%nat "2024-05-05T12:00:00.000Z" 0%nat {| message := "offline" |}
       1%nat eq_refl eq_refl eq_refl eq_refl)).
Defined.

(** * Routes and roles *)

(** X1. A protected page is shown only to a signed-in user once loading is
    over, and only if the user's role is among the roles of its route: the
    administration page only to an admin, the page for a new listing and the
    seller dashboard never to a buyer. *)
Theorem pages_need_role auth l s :
  App_routes auth l = Shows s ->
  s <> LoginPage ->
  isLoading auth = false
  /\ isAuthenticated auth = true
  /\ exists u, auth_user auth = Some u
       /\ (s = AdminDashboard -> user_role u = admin)
       /\ (s = CreateAd \/ s = SellerDashboard -> user_role u <> buyer_role).
Proof.
  intros Hshow Hs.
  destruct l; cbn in Hshow; try discriminate;
    try (injection Hshow as <-; contradiction);
    unfold ProtectedRoute in Hshow;
    destruct (isLoading auth); try discriminate;
    destruct (auth_user auth) as [u |]; try discriminate;
    destruct (isAuthenticated auth); try discriminate;
    cbn in Hshow;
    destruct (user_role u) eqn:Hrole; cbn in Hshow; try discriminate;
    injection Hshow as <-;
    (split; [reflexivity |]; split; [reflexivity |]; exists u;
     split; [reflexivity |]; rewrite Hrole; split;
     [intros; try reflexivity; discriminate
     | intros [|]; try discriminate; intros ?; discriminate]).
Qed.

(** Alice, a buyer, on the feed. *)
Lemma pages_need_role_witness :
  isLoading (signed_in alice) = false
  /\ isAuthenticated (signed_in alice) = true
  /\ exists u, auth_user (signed_in alice) = Some u
       /\ (Feed = AdminDashboard -> user_role u = admin)
       /\ (Feed = CreateAd \/ Feed = SellerDashboard -> user_role u <> buyer_role).
Proof.
  apply (pages_need_role (signed_in alice) AtFeed Feed); [reflexivity | discriminate].
Defined.

Lemma routes_of_signed_in u l :
  App_routes (signed_in u) l = NavigateTo AtFeed
  \/ exists s, App_routes (signed_in u) l = Shows s /\ (s = LoginPage -> l = AtLogin).
Proof.
  destruct l; cbn; unfold ProtectedRoute; cbn;
    try (left; reflexivity);
    try (right; eexists; split; [reflexivity | intros; try reflexivity; discriminate]);
    destruct (user_role u); cbn;
    try (left; reflexivity);
    right; eexists; (split; [reflexivity | discriminate]).
Qed.

Lemma feed_of_signed_in u : App_routes (signed_in u) AtFeed = Shows Feed.
Proof. cbn. unfold ProtectedRoute. cbn. destruct (user_role u); reflexivity. Qed.

Lemma protected_signed_out auth roles s :
  isLoading auth = false ->
  auth_user auth = None \/ isAuthenticated auth = false ->
  ProtectedRoute auth roles s = NavigateTo AtLogin.
Proof.
  intros Hl Hout. unfold ProtectedRoute. rewrite Hl.
  destruct (auth_user auth) as [u |]; [| reflexivity].
  destruct Hout as [Hu | Ha]; [discriminate |]. rewrite Ha. reflexivity.
Qed.

Lemma protected_loading auth roles s :
  isLoading auth = true -> ProtectedRoute auth roles s = Placeholder.
Proof. intros Hl. unfold ProtectedRoute. rewrite Hl. reflexivity. Qed.

Lemma settle_signed_out auth l n :
  isLoading auth = false ->
  auth_user auth = None \/ isAuthenticated auth = false ->
  settle (Datatypes.S (Datatypes.S n)) auth l = Shows LoginPage.
Proof.
  intros Hl Hout.
  assert (Hp : forall roles s, ProtectedRoute auth roles s = NavigateTo AtLogin)
    by (intros; apply protected_signed_out; assumption).
  destruct l; cbn; rewrite ?Hp; cbn; rewrite ?Hp; try reflexivity;
    destruct n; reflexivity.
Qed.

Lemma settle_loading auth l n :
  isLoading auth = true ->
  settle (Datatypes.S (Datatypes.S n)) auth l = settle 2 auth l
  /\ forall l', settle 2 auth l <> NavigateTo l'.
Proof.
  intros Hl.
  assert (Hp : forall roles s, ProtectedRoute auth roles s = Placeholder)
    by (intros; apply protected_loading; assumption).
  destruct l; cbn; rewrite ?Hp; cbn; rewrite ?Hp;
    split; try reflexivity; discriminate.
Qed.

Lemma settle_signed_in u l n :
  exists s, settle (Datatypes.S (Datatypes.S n)) (signed_in u) l = Shows s
            /\ settle 2 (signed_in u) l = Shows s
            /\ (s = LoginPage -> l = AtLogin).
Proof.
  pose proof (feed_of_signed_in u) as Hf.
  destruct (routes_of_signed_in u l) as [H | (s & H & Hs)].
  - exists Feed. cbn [settle]. rewrite H. cbn [settle]. rewrite Hf.
    split; [reflexivity |]. split; [reflexivity | discriminate].
  - exists s. cbn [settle]. rewrite H. auto.
Qed.

(** X2. Following the redirects of the route table from any location ends
    within two of them, and more fuel changes nothing.  While loading,
    every protected location shows the placeholder, and so does the root,
    which redirects to one; an unauthenticated visitor ends on the login
    page from every location; a signed-in user ends on a page, and on the
    login page only by going there. *)
Theorem redirects_settle auth l :
  (forall n, (2 <= n)%nat -> settle n auth l = settle 2 auth l)
  /\ (forall l', settle 2 auth l <> NavigateTo l')
  /\ (isLoading auth = true -> l <> AtLogin ->
      settle 2 auth l = Placeholder
      /\ (l <> AtRoot -> App_routes auth l = Placeholder))
  /\ (isLoading auth = false ->
      auth_user auth = None \/ isAuthenticated auth = false ->
      settle 2 auth l = Shows LoginPage)
  /\ (forall u, auth = signed_in u ->
      exists s, settle 2 auth l = Shows s /\ (s = LoginPage -> l = AtLogin)).
Proof.
  assert (Hstable : forall n, settle (Datatypes.S (Datatypes.S n)) auth l = settle 2 auth l
                              /\ forall l', settle 2 auth l <> NavigateTo l').
  { intros n. destruct (isLoading auth) eqn:Hl; [apply settle_loading; exact Hl |].
    destruct (auth_user auth) as [u |] eqn:Hu.
    - destruct (isAuthenticated auth) eqn:Ha.
      + assert (Hauth : auth = signed_in u).
        { destruct auth; cbn in *; subst; reflexivity. }
        rewrite Hauth. destruct (settle_signed_in u l n) as (s & H1 & H2 & _).
        rewrite H1, H2. split; [reflexivity | discriminate].
      + rewrite !settle_signed_out by auto. split; [reflexivity | discriminate].
    - rewrite !settle_signed_out by auto. split; [reflexivity | discriminate]. }
  split.
  { intros n Hn. destruct n as [| [| n]]; try lia. apply Hstable. }
  split; [apply (Hstable 0%nat) |].
  split.
  { intros Hl Hlogin.
    assert (Hp : forall roles s, ProtectedRoute auth roles s = Placeholder)
      by (intros; apply protected_loading; assumption).
    destruct l; try contradiction; cbn; rewrite ?Hp; cbn; rewrite ?Hp;
      split; try reflexivity; intros Hroot; try reflexivity; contradiction. }
  split; [intros Hl Hout; apply settle_signed_out; assumption |].
  intros u ->. destruct (settle_signed_in u l 0) as (s & _ & H & Hs).
  exists s. auto.
Qed.

(** X3. The floating dashboard button is rendered from the user alone,
    whatever the loading and authentication flags are.  It is absent without
    a user and for a buyer; for a premium user it navigates to the seller
    dashboard and for an admin to the administration page.  The role check of
    the target's route always lets that user in: the target shows its page
    once loading is over and the session is authenticated, shows the
    placeholder while loading, and redirects to the login page when the
    session is not authenticated; it never redirects to the feed. *)
Theorem dashboard_button_target auth u :
  auth_user auth = Some u ->
  FloatingDashboardButton None = None
  /\ match user_role u with
     | buyer_role => FloatingDashboardButton (Some u) = None
     | premium =>
         FloatingDashboardButton (Some u) = Some AtSellerDashboard
         /\ App_routes auth AtSellerDashboard
            = (if isLoading auth then Placeholder
               else if isAuthenticated auth then Shows SellerDashboard
                    else NavigateTo AtLogin)
     | admin =>
         FloatingDashboardButton (Some u) = Some AtAdmin
         /\ App_routes auth AtAdmin
            = (if isLoading auth then Placeholder
               else if isAuthenticated auth then Shows AdminDashboard
                    else NavigateTo AtLogin)
     end.
Proof.
  intros Hu. split; [reflexivity |].
  unfold FloatingDashboardButton. cbn. unfold ProtectedRoute. rewrite Hu.
  destruct (user_role u) eqn:Hrole; try reflexivity;
    (split; [reflexivity |]);
    destruct (isLoading auth); [reflexivity | | reflexivity |];
    destruct (isAuthenticated auth); cbn; rewrite ?Hrole; reflexivity.
Qed.

(** Sol, a seller, while a second login is loading. *)
Lemma dashboard_button_target_witness :
  FloatingDashboardButton (Some sol) = Some AtSellerDashboard
  /\ App_routes (startLoading (signed_in sol)) AtSellerDashboard = Placeholder.
Proof.
  exact (proj2 (dashboard_button_target (startLoading (signed_in sol)) sol eq_refl)).
Defined.

(** X4. Every location a control of the navigation bar navigates to, on
    wide and on narrow screens, shows its page to the user the bar was
    rendered for: the bar offers no link that the route table would turn
    away. *)
Theorem navbar_links_lead_to_pages u l :
  l ∈ Navbar_targets (Some u) ->
  exists s, App_routes (signed_in u) l = Shows s /\ s <> LoginPage.
Proof.
  unfold Navbar_targets, has_role. intros Hin.
  apply list_elem_of_In in Hin.
  destruct (user_role u) eqn:Hrole; cbn in Hin;
    repeat (destruct Hin as [<- | Hin]);
    try contradiction;
    cbn; unfold ProtectedRoute; cbn; rewrite Hrole; cbn;
    eexists; (split; [reflexivity | discriminate]).
Qed.

(** The admin link of an administrator's bar. *)
Lemma navbar_links_lead_to_pages_witness :
  exists s, App_routes (signed_in (sample_user "root" admin)) AtAdmin = Shows s
            /\ s <> LoginPage.
Proof.
  apply (navbar_links_lead_to_pages (sample_user "root" admin) AtAdmin).
  apply list_elem_of_In. vm_compute. tauto.
Defined.

(** * Signing in and out *)

Section Auth.
Context {W : Type}.
Variable serve : forall X, AppService X -> W -> Settled X * W.
Variable browse : forall X, Browser X -> W -> X * W.

(** X5. In every world, [login] makes one call, the sign-in, and ends
    with loading off.  If the sign-in answers with data and no error, the
    session is that of the returned user and [login] completes normally;
    otherwise (rejected call, error, or no data) [login] rejects with the
    message of the failure, "Login failed" when there is none, and the user
    and the authentication flag are what they were. *)
Theorem login_outcome email password st w a w' :
  serve _ (AuthSignIn email password) w = (a, w') ->
  let o := perform serve browse (AuthProvider.login email password) st w in
  entries o = [Did (AuthSignIn email password)]
  /\ final_world o = w'
  /\ isLoading (final_state o) = false
  /\ match signIn_result a with
     | inl u => completion o = Fulfilled tt /\ final_state o = signed_in u
     | inr msg =>
         (exists e, completion o = Rejected e /\ message e = msg)
         /\ final_state o = stopLoading st
     end.
Proof.
  intros Hs o. subst o. unfold AuthProvider.login. cbn. rewrite Hs. cbn.
  destruct a as [res | e]; cbn.
  - destruct (data res) as [d |]; [destruct (truthy (error res)) |]; cbn;
      repeat split; eexists; split; reflexivity.
  - repeat split. eexists; split; reflexivity.
Qed.

(** In every world [logout] either signs out, when the call is
    fulfilled, or leaves the session untouched, when it is rejected. *)
Lemma logout_outcome st w :
  let o := perform serve browse AuthProvider.logout st w in
  final_state o = signed_out \/ final_state o = st.
Proof.
  cbn. unfold AuthProvider.logout. cbn.
  destruct (serve _ AuthSignOut w) as [[[] | e] w']; cbn; auto.
Qed.
End Auth.

Lemma login_consistent {W : Type}
    (serve : forall X, AppService X -> W -> Settled X * W)
    (browse : forall X, Browser X -> W -> X * W) email password st w :
  AuthProvider.consistent st ->
  AuthProvider.consistent
    (final_state (perform serve browse (AuthProvider.login email password) st w)).
Proof.
  intros Hc. unfold AuthProvider.login. cbn.
  destruct (serve _ (AuthSignIn email password) w) as [[res | e] w']; cbn;
    [| exact Hc].
  destruct (data res) as [d |]; [destruct (truthy (error res)) |]; cbn;
    try exact Hc.
  intros _. eexists. reflexivity.
Qed.

Lemma provider_step_consistent p p' :
  AuthProvider.step p p' ->
  AuthProvider.consistent (AuthProvider.auth p) ->
  AuthProvider.consistent (AuthProvider.auth p').
Proof.
  intros Hstep Hc.
  destruct Hstep as [p | user p | p | p | W serve browse w email password p
                     | W serve browse w p | u p].
  - unfold AuthProvider.onSafetyTimeout.
    destruct (AuthProvider.armed p); [| exact Hc]. cbn.
    destruct (AuthProvider.mounted p); [| exact Hc].
    destruct (isLoading (AuthProvider.auth p)); exact Hc.
  - unfold AuthProvider.onSession.
    destruct (AuthProvider.mounted p); cbn; [| exact Hc].
    destruct user; [intros _; eexists; reflexivity | exact Hc].
  - cbn. destruct (AuthProvider.mounted p); exact Hc.
  - exact Hc.
  - cbn [AuthProvider.with_auth AuthProvider.auth]. apply login_consistent. exact Hc.
  - cbn [AuthProvider.with_auth AuthProvider.auth].
    destruct (logout_outcome serve browse (AuthProvider.auth p) w) as [-> | ->];
      [discriminate | exact Hc].
  - intros _. eexists. reflexivity.
Qed.

(** X6. Whatever happens to the provider after it mounted (the session
    arrives or fails, the safety timeout fires, the provider unmounts,
    [login], [logout] and [updateUser] run in any worlds, in any order), the
    authentication flag is never set without a user: a state a protected
    route lets through always carries the user whose role it checks. *)
Theorem session_flag_implies_user p :
  rtc AuthProvider.step AuthProvider.mount p ->
  AuthProvider.consistent (AuthProvider.auth p)
  /\ forall roles s,
       ProtectedRoute (AuthProvider.auth p) roles s = Shows s ->
       exists u, auth_user (AuthProvider.auth p) = Some u
                 /\ user_role u ∈ roles.
Proof.
  intros Hrun.
  assert (Hc : AuthProvider.consistent (AuthProvider.auth p)).
  { assert (H0 : AuthProvider.consistent (AuthProvider.auth AuthProvider.mount))
      by discriminate.
    revert H0. induction Hrun as [p | p mid p' Hstep _ IH]; intros H0; [exact H0 |].
    apply IH. eapply provider_step_consistent; eassumption. }
  split; [exact Hc |].
  intros roles s Hshow. unfold ProtectedRoute in Hshow.
  destruct (isLoading (AuthProvider.auth p)); [discriminate |].
  destruct (auth_user (AuthProvider.auth p)) as [u |]; [| discriminate].
  destruct (isAuthenticated (AuthProvider.auth p)); [| discriminate].
  cbn in Hshow. unfold includes_role in Hshow.
  destruct (bool_decide (user_role u ∈ roles)) eqn:Hr; [| discriminate].
  exists u. split; [reflexivity |]. apply bool_decide_eq_true in Hr. exact Hr.
Qed.

(** The session arrives with Alice, then Alice's profile is updated. *)
Lemma session_flag_implies_user_witness :
  AuthProvider.consistent
    (AuthProvider.updateUser alice (signed_in alice)).
Proof.
  refine (proj1 (session_flag_implies_user
    (AuthProvider.with_auth (AuthProvider.updateUser alice (signed_in alice))
       (AuthProvider.onSession (Some alice) AuthProvider.mount)) _)).
  eapply rtc_l; [apply (AuthProvider.step_session (Some alice)) |].
  apply rtc_once.
  apply (AuthProvider.step_updateUser alice
           (AuthProvider.onSession (Some alice) AuthProvider.mount)).
Defined.

(** X7. The effect's callbacks respect the unmount and each other: once
    the provider unmounted, neither the session nor its failure nor the
    timeout changes the state; a safety timeout that fires first only turns
    loading off; and once the session has arrived on a mounted provider, the
    timeout changes nothing, so it cannot fall back behind a session that
    was restored. *)
Theorem session_callbacks p user :
  (AuthProvider.mounted p = false ->
     AuthProvider.auth (AuthProvider.onSession user p) = AuthProvider.auth p
     /\ AuthProvider.auth (AuthProvider.onSessionError p) = AuthProvider.auth p
     /\ AuthProvider.auth (AuthProvider.onSafetyTimeout p) = AuthProvider.auth p)
  /\ (AuthProvider.mounted p = true -> AuthProvider.armed p = true ->
      AuthProvider.auth (AuthProvider.onSafetyTimeout p)
      = stopLoading (AuthProvider.auth p))
  /\ (AuthProvider.mounted p = true ->
      AuthProvider.onSafetyTimeout (AuthProvider.onSession user p)
      = AuthProvider.onSession user p
      /\ isLoading (AuthProvider.auth (AuthProvider.onSession user p)) = false)
  /\ AuthProvider.onSafetyTimeout (AuthProvider.unmount p) = AuthProvider.unmount p.
Proof.
  split; [| split; [| split]].
  - intros Hm. unfold AuthProvider.onSession, AuthProvider.onSessionError,
      AuthProvider.onSafetyTimeout. rewrite Hm. cbn.
    destruct (AuthProvider.armed p); auto.
  - intros Hm Ha. unfold AuthProvider.onSafetyTimeout. rewrite Hm, Ha. cbn.
    destruct (AuthProvider.auth p) as [u a []]; reflexivity.
  - intros Hm. unfold AuthProvider.onSession. rewrite Hm. cbn.
    split; [reflexivity |]. destruct user; reflexivity.
  - reflexivity.
Qed.

(** Alice signs in while every service answers. *)
Lemma login_outcome_witness :
  final_state (perform (app_serve all_well) (scripted_browse true)
                 (AuthProvider.login "alice@mail" "secret") signed_out 0%nat)
  = signed_in alice.
Proof.
  pose proof (login_outcome (app_serve all_well) (scripted_browse true)
                "alice@mail" "secret" signed_out 0%nat _ 1%nat eq_refl) as H.
  exact (proj2 (proj2 (proj2 (proj2 H)))).
Defined.

(** X8. Submitting the login form never rejects and ends with the form's
    loading flag off.  When the sign-in succeeds the page navigates to the
    feed, and the feed route shows the feed to the session [login] just
    stored; when it fails the page does not navigate, shows the failure's
    message, and the session is what it was. *)
Theorem login_page_submit
    {W : Type} (serve : forall X, AppService X -> W -> Settled X * W)
    (browse : forall X, Browser X -> W -> X * W) v w a w' :
  serve _ (AuthSignIn (lp_email (lv_page v)) (lp_password (lv_page v))) w = (a, w') ->
  let o := perform serve browse (LoginPage_handleSubmit v) v w in
  completion o = Fulfilled tt
  /\ lp_loading (lv_page (final_state o)) = false
  /\ match signIn_result a with
     | inl u =>
         entries o = [Emitted PreventDefault;
                      Did (AuthSignIn (lp_email (lv_page v)) (lp_password (lv_page v)));
                      Emitted (Navigate (href AtFeed))]
         /\ lv_auth (final_state o) = signed_in u
         /\ lp_error (lv_page (final_state o)) = ""
         /\ App_routes (lv_auth (final_state o)) AtFeed = Shows Feed
     | inr msg =>
         entries o = [Emitted PreventDefault;
                      Did (AuthSignIn (lp_email (lv_page v)) (lp_password (lv_page v)))]
         /\ lv_auth (final_state o) = stopLoading (lv_auth v)
         /\ lp_error (lv_page (final_state o)) = msg
     end.
Proof.
  intros Hs o. subst o. unfold LoginPage_handleSubmit, AuthProvider.login.
  cbn. rewrite Hs. cbn.
  destruct a as [res | e]; cbn.
  - destruct (data res) as [d |]; [destruct (truthy (error res)) |]; cbn;
      repeat split. apply feed_of_signed_in.
  - repeat split.
Qed.

(** Alice's sign-in is refused. *)
Lemma login_page_submit_witness :
  lp_error (lv_page (final_state
    (perform (app_serve all_refused) (scripted_browse true)
       (LoginPage_handleSubmit (login_form "alice@mail" "wrong"))
       (login_form "alice@mail" "wrong") 0%nat)))
  = "Invalid login".
Proof.
  pose proof (login_page_submit (app_serve all_refused) (scripted_browse true)
                (login_form "alice@mail" "wrong") 0%nat _ 1%nat eq_refl) as H.
  exact (proj2 (proj2 (proj2 (proj2 H)))).
Defined.

(** * Buying *)

(** X9. Without a user [handleBuy] does nothing.  Otherwise it asks the
    gateway for one payment, of the product's price and described by its
    title, never rejects, and ends with [verifying] off.  When
    the gateway answers with success and data, the payment modal shows that
    payment, and a confirmation from that page, in any world, starts by
    polling the status of exactly that payment.  In every other case
    ([success] false, no data, rejected call) the page only alerts: the
    payment modal is what it was. *)
Theorem handleBuy_outcome
    {W : Type} (serve : forall X, AppService X -> W -> Settled X * W)
    (browse : forall X, Browser X -> W -> X * W)
    {W2 : Type} (serve2 : forall X, Service X -> W2 -> Settled X * W2)
    (browse2 : forall X, Browser X -> W2 -> X * W2) (w2 : W2)
    st u p w a w' :
  product st = Some p ->
  serve _ (CreatePayment (price p) ("Order: " ++ title p)) w = (a, w') ->
  let o := perform serve browse (handleBuy st (Some u)) st w in
  let idle := perform serve browse (handleBuy st None) st w in
  entries idle = [] /\ final_state idle = st
  /\ completion o = Fulfilled tt
  /\ verifying (final_state o) = false
  /\ product (final_state o) = Some p
  /\ match payment_result a with
     | inl d =>
         entries o = [Did (CreatePayment (price p) ("Order: " ++ title p))]
         /\ payment_modal (final_state o) = Some d
         /\ exists rest,
              trace (confirm serve2 browse2 (final_state o) (Some u) w2)
              = Called (GetPaymentStatus (pd_id d)) :: rest
     | inr text =>
         entries o = [Did (CreatePayment (price p) ("Order: " ++ title p));
                      Emitted (Alert text)]
         /\ payment_modal (final_state o) = payment_modal st
         /\ paymentData (final_state o) = paymentData st
     end.
Proof.
  intros Hp Hs o idle. subst o idle. unfold handleBuy. rewrite Hp.
  split; [reflexivity |]. split; [reflexivity |].
  cbn. rewrite Hs. cbn.
  destruct a as [res | e]; cbn.
  - destruct (pr_success res); [destruct (pr_data res) as [d |] |]; cbn;
      rewrite ?Hp; repeat split.
    unfold confirm, confirmPayment. cbn. rewrite ?Hp. cbn.
    eexists. reflexivity.
  - rewrite Hp. repeat split.
Qed.

(** Alice asks for a payment while the gateway answers. *)
Lemma handleBuy_outcome_witness :
  payment_modal (final_state
    (perform (app_serve all_well) (scripted_browse true)
       (handleBuy (product_page 1) (Some alice)) (product_page 1) 0%nat))
  = Some {| pd_id := "payA"; qrcodeUrl := "qr.png"; copyPaste := None |}.
Proof.
  pose proof (handleBuy_outcome (app_serve all_well) (scripted_browse true)
                backend_serve (backend_browse true) shop
                (product_page 1) alice (sample_product 1) 0%nat _ 1%nat
                eq_refl eq_refl) as H.
  exact (proj1 (proj2 (proj2 (proj2 (proj2 (proj2 (proj2 H))))))).
Defined.

(** X10. The chat opened from a product page is a chat with the product's
    seller: the contact [openDirectChat] stores carries the seller's id, and
    a non-blank message submitted in the [DirectChatModal] rendered for it is
    written with the viewer as sender and the product's seller as receiver,
    as is its optimistic copy. *)
Theorem product_chat_reaches_seller st p now u text
    (answers : forall X, Browser X -> X) :
  product st = Some p ->
  trims_to_empty text = false ->
  exists contact,
    directChatUser (openDirectChat now st) = Some contact
    /\ user_id contact = sellerId p
    /\ match sync answers
               (DirectChatModal.handleSend contact (Some u) false (typing text))
               (typing text) with
       | (chat, _, Waiting c _) =>
           Called c = Called (DirectChatSendMessage (user_id u) (sellerId p) text)
           /\ Forall (fun m => dm_senderId m = user_id u
                               /\ dm_receiverId m = sellerId p)
                     (ds_messages chat)
       | _ => False
       end.
Proof.
  intros Hp Hblank. exists (seller_contact p now).
  unfold openDirectChat. rewrite Hp. split; [reflexivity |]. split; [reflexivity |].
  unfold DirectChatModal.handleSend. cbn [ds_newMessage typing]. rewrite Hblank.
  cbn. split; [reflexivity |]. repeat constructor.
Qed.

(** Alice writes "oi" from the page of Sol's product. *)
Lemma product_chat_reaches_seller_witness :
  exists contact,
    directChatUser (openDirectChat "2024-05-05" (product_page 1)) = Some contact
    /\ user_id contact = "seller".
Proof.
  destruct (product_chat_reaches_seller (product_page 1) (sample_product 1)
              "2024-05-05" alice "oi" fixed_answers eq_refl eq_refl)
    as (contact & H1 & H2 & _).
  exists contact. split; [exact H1 | exact H2].
Defined.

(** * Chats *)

(** X11. Sending in an order chat never touches the log: there is no
    optimistic copy, the message can only arrive through the feed.  A blank
    text or a missing user makes no call.  Otherwise the one call is the
    write of the typed text for this order and sender, and [sending] is off
    afterwards; the input is cleared when the write is fulfilled, and when it
    is rejected the typed text stays and the rejection is passed on to the
    caller. *)
Theorem order_send_outcome
    {W : Type} (serve : forall X, Service X -> W -> Settled X * W)
    (browse : forall X, Browser X -> W -> X * W) order u st w a w' :
  serve _ (ChatSendMessage (order_id order) (user_id u) (cs_newMessage st)) w
    = (a, w') ->
  let o := run serve browse (ChatModal.handleSend order (Some u) st) st w in
  let idle := run serve browse (ChatModal.handleSend order None st) st w in
  cs_messages (state_after o) = cs_messages st
  /\ trace idle = [Noticed PreventDefault] /\ state_after idle = st
  /\ if trims_to_empty (cs_newMessage st)
     then trace o = [Noticed PreventDefault] /\ state_after o = st
     else
       trace o = [Noticed PreventDefault;
                  Called (ChatSendMessage (order_id order) (user_id u)
                            (cs_newMessage st))]
       /\ cs_sending (state_after o) = false
       /\ result o = a
       /\ cs_newMessage (state_after o)
          = match a with
            | Fulfilled _ => ""
            | Rejected _ => cs_newMessage st
            end.
Proof.
  intros Hs o idle. subst o idle. unfold ChatModal.handleSend.
  destruct (trims_to_empty (cs_newMessage st)); cbn; [repeat split |].
  rewrite Hs. cbn. destruct a as [[] | e]; cbn; repeat split.
Qed.

(** Alice sends "oi" in the chat of an order while the store is offline. *)
Lemma order_send_outcome_witness :
  cs_newMessage (state_after
    (run (scripted_serve write_fails) (scripted_browse true)
       (ChatModal.handleSend
          (sample_order paid)
          (Some alice) (cs_setNewMessage "oi" closed_chat))
       (cs_setNewMessage "oi" closed_chat) 0%nat))
  = "oi".
Proof.
  pose proof (order_send_outcome (scripted_serve write_fails) (scripted_browse true)
                (sample_order paid)
                alice (cs_setNewMessage "oi" closed_chat) 0%nat _ 1%nat eq_refl)
    as H.
  exact (proj2 (proj2 (proj2 (proj2 (proj2 (proj2 H)))))).
Defined.

(** X12. An order chat whose feed delivers no DELETE appends the rows of
    the INSERT events, in feed order, after the messages it had, and ignores
    the UPDATE events: the log only grows, by one message per INSERT. *)
Theorem order_feed_appends_in_order events log :
  Forall (fun e => eventType e <> DELETE) events ->
  ChatModal_onFeed events log
  = (log ++ map (fun e => ChatModal.newMsg (new e))
              (filter (fun e => eventType e = INSERT) events))%list.
Proof.
  unfold ChatModal_onFeed. revert log.
  induction events as [| e events IH]; intros log Hno.
  - cbn. rewrite app_nil_r. reflexivity.
  - inversion Hno as [| ? ? He Hrest]; subst.
    cbn [foldl]. rewrite IH by exact Hrest. unfold ChatModal.onPayload.
    destruct (eventType e) eqn:Hty.
    + rewrite filter_cons_True by exact Hty. cbn [map].
      rewrite <- app_assoc. reflexivity.
    + rewrite filter_cons_False by (rewrite Hty; discriminate). reflexivity.
    + contradiction.
Qed.

(** An INSERT and an UPDATE of the order chat's feed. *)
Lemma order_feed_appends_in_order_witness :
  ChatModal_onFeed
    [{| eventType := INSERT;
        new := {| mr_id := "m1"; mr_order_id := "O1"; mr_sender_id := "alice";
                  mr_content := "oi"; mr_created_at := "t1" |};
        old := {| mr_id := ""; mr_order_id := ""; mr_sender_id := "";
                  mr_content := ""; mr_created_at := "" |} |};
     {| eventType := UPDATE;
        new := {| mr_id := "m1"; mr_order_id := "O1"; mr_sender_id := "alice";
                  mr_content := "ola"; mr_created_at := "t1" |};
        old := {| mr_id := "m1"; mr_order_id := "O1"; mr_sender_id := "alice";
                  mr_content := "oi"; mr_created_at := "t1" |} |}]
    []
  = [{| cm_id := "m1"; cm_orderId := "O1"; cm_senderId := "alice";
        cm_content := "oi"; cm_createdAt := "t1" |}].
Proof.
  refine (order_feed_appends_in_order _ [] _).
  repeat constructor; discriminate.
Defined.

Lemma onInsert_incoming user buyer payload prev :
  DirectChatModal.onInsert user buyer payload prev
  = (prev ++ (if decide (incoming user buyer (new payload))
              then [DirectChatModal.fromRow (new payload)] else []))%list.
Proof.
  unfold DirectChatModal.onInsert, DirectChatModal.isRelevant, incoming.
  destruct (String.eqb_spec (dr_sender_id (new payload)) (user_id user)) as [Hsu | Hsu];
    destruct (String.eqb_spec (dr_receiver_id (new payload)) (user_id buyer)) as [Hrb | Hrb];
    destruct (String.eqb_spec (dr_sender_id (new payload)) (user_id buyer)) as [Hsb | Hsb];
    destruct (String.eqb_spec (dr_receiver_id (new payload)) (user_id user)) as [Hru | Hru];
    cbn;
    first [ rewrite decide_True by tauto; reflexivity
          | rewrite decide_False by tauto; rewrite app_nil_r; reflexivity ].
Qed.

(** X13. The direct chat of [user] with [buyer] appends, in feed order,
    exactly the rows that go from [buyer] to [user] and that [user] did not
    send; every other row of the unfiltered feed, among them the
    conversations of other pairs and the user's own messages, is dropped.
    In a chat with oneself nothing ever arrives through the feed. *)
Theorem direct_feed_appends_incoming user buyer events log :
  DirectChatModal_onFeed user buyer events log
  = (log ++ map DirectChatModal.fromRow
              (filter (incoming user buyer) (map new events)))%list
  /\ (user_id user = user_id buyer ->
      DirectChatModal_onFeed user buyer events log = log).
Proof.
  assert (Heq : forall log0,
            DirectChatModal_onFeed user buyer events log0
            = (log0 ++ map DirectChatModal.fromRow
                         (filter (incoming user buyer) (map new events)))%list).
  { unfold DirectChatModal_onFeed.
    induction events as [| e events IH]; intros log0.
    - cbn. rewrite app_nil_r. reflexivity.
    - cbn [foldl map]. rewrite IH, onInsert_incoming, filter_cons.
      destruct (decide (incoming user buyer (new e))); cbn [map].
      + rewrite <- app_assoc. reflexivity.
      + rewrite app_nil_r. reflexivity. }
  split; [apply Heq |].
  intros Hself. rewrite Heq.
  rewrite (filter_none (incoming user buyer)).
  - cbn. apply app_nil_r.
  - intros row _ (Hs & _ & Hne). apply Hne. rewrite Hs. symmetry. exact Hself.
Qed.

(** * Orders *)

(** X14. Who bought through the purchase button cannot close the order:
    the button is there only for a viewer who is not the product's seller,
    so in the chat of an order made from that page's payload the buyer is
    not the seller; the delivery button is not rendered for the buyer, and a
    click where it would be makes no call and changes nothing, in any
    world.  The product's seller does get the button. *)
Theorem buyer_cannot_mark_delivered
    {W : Type} (serve : forall X, Service X -> W -> Settled X * W)
    (browse : forall X, Browser X -> W -> X * W) (w : W)
    u p order seller st :
  canBuy (Some u) p = true ->
  buyerId order = no_buyerId (order_payload u p) ->
  order_sellerId order = no_sellerId (order_payload u p) ->
  user_id seller = sellerId p ->
  ChatModal.isSeller order (Some u) = false
  /\ (let o := run serve browse (ChatModal.clickMarkDelivered order (Some u)) st w in
      trace o = [] /\ world_after o = w /\ state_after o = st)
  /\ ChatModal.isSeller order (Some seller) = true.
Proof.
  intros Hbuy Hb Hs Hseller. cbn in Hb, Hs.
  unfold canBuy in Hbuy. apply andb_true_iff in Hbuy. destruct Hbuy as [Hne _].
  apply negb_true_iff in Hne.
  assert (Hnot : ChatModal.isSeller order (Some u) = false).
  { unfold ChatModal.isSeller. rewrite Hs. exact Hne. }
  split; [exact Hnot |]. split.
  - unfold ChatModal.clickMarkDelivered. rewrite Hnot. repeat split.
  - unfold ChatModal.isSeller. rewrite Hs, Hseller. apply String.eqb_refl.
Qed.

(** Alice, who bought Sol's product. *)
Lemma buyer_cannot_mark_delivered_witness :
  ChatModal.isSeller
    (sample_order paid)
    (Some alice)
  = false.
Proof.
  exact (proj1 (buyer_cannot_mark_delivered backend_serve (backend_browse true) shop
                  alice (sample_product 1) (sample_order paid) sol closed_chat
                  eq_refl eq_refl eq_refl eq_refl)).
Defined.

Lemma my_orders_step_paid st st' :
  my_orders_step st st' ->
  (forall o, mo_selectedOrder st = Some o -> order_status o = paid) ->
  forall o, mo_selectedOrder st' = Some o -> order_status o = paid.
Proof.
  intros Hstep Hinv o. destruct Hstep as [res st | order st | st]; cbn.
  - apply Hinv.
  - unfold mo_onClick. destruct (bool_decide (order_status order = paid)) eqn:Hp.
    + cbn. intros [= <-]. apply bool_decide_eq_true in Hp. exact Hp.
    + apply Hinv.
  - discriminate.
Qed.

(** X15. From the buyer's list of orders a chat opens only on an order
    that is listed as paid: along every run of the list (orders arriving,
    rows clicked, chats closed) the selected order, if any, has status
    [paid]; a click on a delivered order selects nothing. *)
Theorem my_orders_chat_only_when_paid st :
  rtc my_orders_step mo_initial st ->
  (forall o, mo_selectedOrder st = Some o -> order_status o = paid)
  /\ (forall order, order_status order = delivered -> mo_onClick order st = st).
Proof.
  intros Hrun. split.
  - assert (H0 : forall o, mo_selectedOrder mo_initial = Some o ->
                           order_status o = paid) by discriminate.
    revert H0. induction Hrun as [st | st mid st' Hstep _ IH]; intros H0;
      [exact H0 |].
    apply IH. eapply my_orders_step_paid; eassumption.
  - intros order Hd. unfold mo_onClick. rewrite Hd. reflexivity.
Qed.

(** Alice clicks her paid order, then a delivered one. *)
Lemma my_orders_chat_only_when_paid_witness :
  mo_onClick (sample_order delivered) (mo_onClick (sample_order paid) mo_initial)
  = mo_onClick (sample_order paid) mo_initial.
Proof.
  refine (proj2 (my_orders_chat_only_when_paid
                   (mo_onClick (sample_order paid) mo_initial) _)
            (sample_order delivered) eq_refl).
  apply rtc_once. apply mo_clicked.
Defined.

(** * Listings *)

(** X16. Deleting a listing asks first.  A declined dialog makes no call
    and changes nothing.  An accepted one makes the one delete call; when it
    is fulfilled the list becomes the list of that render without the
    products of the deleted id, every other product kept; when it is
    rejected the list stays and the rejection is passed on. *)
Theorem handleDelete_outcome
    {W : Type} (serve : forall X, AppService X -> W -> Settled X * W)
    (browse : forall X, Browser X -> W -> X * W)
    products id st w ok w1 a w2 :
  browse _ (WindowConfirm "Excluir este anúncio?") w = (ok, w1) ->
  serve _ (ProductsDelete id) w1 = (a, w2) ->
  let o := perform serve browse (handleDelete products id) st w in
  if ok then
    entries o = [Queried (WindowConfirm "Excluir este anúncio?");
                 Did (ProductsDelete id)]
    /\ completion o = a
    /\ match a with
       | Fulfilled _ =>
           sd_products (final_state o)
           = filter (fun p => product_id p <> id) products
           /\ (forall p, p ∈ sd_products (final_state o)
                         <-> p ∈ products /\ product_id p <> id)
       | Rejected _ => final_state o = st
       end
  else
    entries o = [Queried (WindowConfirm "Excluir este anúncio?")]
    /\ final_state o = st
    /\ final_world o = w1.
Proof.
  intros Hb Hs o. subst o. unfold handleDelete. cbn. rewrite Hb. cbn.
  destruct ok; cbn; [| repeat split].
  rewrite Hs. cbn. destruct a as [[] | e]; cbn; [| repeat split].
  split; [reflexivity |]. split; [reflexivity |]. split; [reflexivity |].
  intros p. rewrite list_elem_of_filter. tauto.
Qed.

(** Sol deletes the only listing. *)
Lemma handleDelete_outcome_witness :
  sd_products (final_state
    (perform (app_serve all_well) (scripted_browse true)
       (handleDelete [sample_product 1] "p1")
       (dashboard [sample_product 1]) 0%nat))
  = [].
Proof.
  pose proof (handleDelete_outcome (app_serve all_well) (scripted_browse true)
                [sample_product 1] "p1"
                (dashboard [sample_product 1])
                0%nat true 0%nat (Fulfilled tt) 1%nat eq_refl eq_refl) as H.
  exact (proj1 (proj2 (proj2 H))).
Defined.

(** X17. The list a delete writes is computed from the list of the render
    the click happened in, not from the current one.  When two deletes are
    started from the same render and both are accepted and fulfilled, the
    one that settles last puts the product the other one removed back on
    the list. *)
Theorem overlapping_deletes_restore products id1 id2 st p
    (answers : forall X, Browser X -> X) :
  answers _ (WindowConfirm "Excluir este anúncio?") = true ->
  p ∈ products -> product_id p = id1 -> id1 <> id2 ->
  match start answers (handleDelete products id1) st,
        start answers (handleDelete products id2) st with
  | (_, _, Awaiting c1 k1), (_, _, Awaiting c2 k2) =>
      Did c1 = Did (ProductsDelete id1)
      /\ Did c2 = Did (ProductsDelete id2)
      /\ forall x1 x2,
           let st1 := (start answers (k1 (Fulfilled x1)) st).1.1 in
           let st2 := (start answers (k2 (Fulfilled x2)) st1).1.1 in
           (p ∉ sd_products st1) /\ p ∈ sd_products st2
  | _, _ => False
  end.
Proof.
  intros Hok Hin Hid Hne. unfold handleDelete. cbn. rewrite Hok. cbn.
  split; [reflexivity |]. split; [reflexivity |].
  intros [] []. cbn. split.
  - intros Hp. apply list_elem_of_filter in Hp. destruct Hp as [Hp _].
    apply Hp. exact Hid.
  - apply list_elem_of_filter. split; [congruence | exact Hin].
Qed.

(** Sol deletes two listings from the same render. *)
Lemma overlapping_deletes_restore_witness :
  match start fixed_answers
          (handleDelete [sample_product 1; second_product] "p1")
          (dashboard [sample_product 1; second_product]) with
  | (_, _, Awaiting c _) => Did c = Did (ProductsDelete "p1")
  | _ => False
  end.
Proof.
  pose proof (overlapping_deletes_restore
                [sample_product 1; second_product] "p1" "p2"
                (dashboard [sample_product 1; second_product])
                (sample_product 1) fixed_answers eq_refl) as H.
  cbn in H |- *. refine (proj1 (H _ eq_refl _)).
  - apply list_elem_of_In. cbn. tauto.
  - discriminate.
Defined.

(** X18. Publishing a listing does nothing without a user or without an
    image.  Otherwise the image is uploaded under the user's id first, and
    the product is created only if the upload returned a result: it is then
    created for that user, with the uploaded image and delivery by shipping,
    and the page navigates to the feed once the creation is fulfilled.  A
    failed upload or creation is alerted, and on every path the handler
    completes normally with [loading] off. *)
Theorem createAd_submit
    {W : Type} (serve : forall X, AppService X -> W -> Settled X * W)
    (browse : forall X, Browser X -> W -> X * W)
    (parseFloat parseInt : string -> Z) st u image w a w1 :
  ca_image st = Some image ->
  serve _ (StorageUploadImage image (user_id u)) w = (a, w1) ->
  let o := perform serve browse
             (CreateAd_handleSubmit parseFloat parseInt st (Some u)) st w in
  let idle := perform serve browse
                (CreateAd_handleSubmit parseFloat parseInt st None) st w in
  entries idle = [Emitted PreventDefault] /\ final_state idle = st
  /\ (forall st0, ca_image st0 = None ->
      entries (perform serve browse
                 (CreateAd_handleSubmit parseFloat parseInt st0 (Some u)) st0 w)
      = [Emitted PreventDefault])
  /\ completion o = Fulfilled tt
  /\ ca_loading (final_state o) = false
  /\ match a with
     | Fulfilled (Some up) =>
         let np := new_product parseFloat parseInt (ca_formData st) up in
         np_imageUrl np = url up /\ np_deliveryMethod np = shipping
         /\ entries o
            = [Emitted PreventDefault;
               Did (StorageUploadImage image (user_id u));
               Did (ProductsCreate np u);
               match (serve _ (ProductsCreate np u) w1).1 with
               | Fulfilled _ => Emitted (Navigate (href AtFeed))
               | Rejected e => Emitted (Alert (message e))
               end]
     | Fulfilled None =>
         entries o = [Emitted PreventDefault;
                      Did (StorageUploadImage image (user_id u));
                      Emitted (Alert "Upload falhou")]
     | Rejected e =>
         entries o = [Emitted PreventDefault;
                      Did (StorageUploadImage image (user_id u));
                      Emitted (Alert (message e))]
     end.
Proof.
  intros Himg Hs o idle. subst o idle. unfold CreateAd_handleSubmit.
  split; [reflexivity |]. split; [reflexivity |].
  split; [intros st0 H0; rewrite H0; reflexivity |].
  rewrite Himg. cbn. rewrite Hs. cbn.
  destruct a as [[up |] | e]; cbn; [| repeat split ..].
  destruct (serve _ (ProductsCreate
                       (new_product parseFloat parseInt (ca_formData st) up) u) w1)
    as [[[] | e] w2]; cbn; repeat split.
Qed.

(** Alice publishes while the upload returns nothing. *)
Lemma createAd_submit_witness :
  entries (perform (app_serve all_refused) (scripted_browse true)
             (CreateAd_handleSubmit (fun _ => 5000) (fun _ => 1)
                (ad_form (Some {| file_name := "bike.png" |}))
                (Some alice))
             (ad_form (Some {| file_name := "bike.png" |}))
             0%nat)
  = [Emitted PreventDefault;
     Did (StorageUploadImage {| file_name := "bike.png" |} "alice");
     Emitted (Alert "Upload falhou")].
Proof.
  pose proof (createAd_submit (app_serve all_refused) (scripted_browse true)
                (fun _ => 5000) (fun _ => 1)
                (ad_form (Some {| file_name := "bike.png" |}))
                alice {| file_name := "bike.png" |} 0%nat _ 1%nat
                eq_refl eq_refl) as H.
  exact (proj2 (proj2 (proj2 (proj2 (proj2 H))))).
Defined.

(** * More on the settlement saga *)

Section Saga.
Context {W : Type}.
Variable serve : forall X, Service X -> W -> Settled X * W.
Variable browse : forall X, Browser X -> W -> X * W.

(** X19. In every world and whatever the services answer, a confirmation
    never rejects and never leaves [verifying] on; without a payment, a
    product or a user it does nothing at all; otherwise its service calls
    are an initial part of: status poll, order creation, stock write,
    payout, in this order.  So no payout is issued without a stock write,
    and no stock write without an order creation, before it. *)
Theorem confirm_calls_in_order st user w :
  let o := confirm serve browse st user w in
  result o = Fulfilled tt
  /\ match paymentData st, product st, user with
     | Some pd, Some p, Some u =>
         filter (fun e => is_call e = true) (trace o) `prefix_of` saga_calls pd u p
         /\ state_after o = setVerifying false st
     | _, _, _ => trace o = [] /\ state_after o = st
     end.
Proof.
  unfold confirm, confirmPayment.
  destruct (paymentData st) as [pd |]; [| cbn; auto].
  destruct (product st) as [p |]; [| cbn; auto].
  destruct user as [u |]; [| cbn; auto].
  cbn.
  destruct (serve _ (GetPaymentStatus (pd_id pd)) w) as [[res | e] w1]; cbn;
    [| repeat split; eexists; reflexivity].
  destruct (is_success_status res); cbn; [| repeat split; eexists; reflexivity].
  destruct (serve _ (OrdersCreate (order_payload u p)) w1) as [[cr | e] w2]; cbn;
    [| repeat split; eexists; reflexivity].
  destruct (truthy (error cr) || negb (bool_decide (is_Some (data cr)))); cbn;
    [repeat split; eexists; reflexivity |].
  destruct (serve _ (ProductsUpdateStock (product_id p) (quantity p - 1)) w2)
    as [[[] | e] w3]; cbn; [| repeat split; eexists; reflexivity].
  destruct (serve _ (CreateWithdraw (price p) (pixKey p) (pixKeyType p)) w3)
    as [[[] | e] w4]; cbn; repeat split; eexists; reflexivity.
Qed.

(** X20. The two partial failures of a confirmation.  When the order was
    created and the stock write is rejected, no payout is issued; when the
    stock was written and the payout is rejected, the order and the stock
    write stand.  Either way the buyer is told "Erro ao verificar" with the
    message, the page does not navigate, and the page is left ready for
    another confirmation, which, once the poll reports the payment again,
    asks for the creation of the same order a second time. *)
Theorem confirm_partial_failure st user pd p u w res w1 created w2 a w3 b w4 e
    (w' : W) res' w1' :
  paymentData st = Some pd -> product st = Some p -> user = Some u ->
  serve _ (GetPaymentStatus (pd_id pd)) w = (Fulfilled res, w1) ->
  is_success_status res = true ->
  serve _ (OrdersCreate (order_payload u p)) w1 = (Fulfilled created, w2) ->
  creation_error (Fulfilled created) = None ->
  serve _ (ProductsUpdateStock (product_id p) (quantity p - 1)) w2 = (a, w3) ->
  serve _ (CreateWithdraw (price p) (pixKey p) (pixKeyType p)) w3 = (b, w4) ->
  a = Rejected e \/ (a = Fulfilled tt /\ b = Rejected e) ->
  serve _ (GetPaymentStatus (pd_id pd)) w' = (Fulfilled res', w1') ->
  is_success_status res' = true ->
  let o := confirm serve browse st user w in
  let again := confirm serve browse (state_after o) user w' in
  trace o
  = (firstn (match a with Rejected _ => 3 | Fulfilled _ => 4 end)
            (saga_calls pd u p)
     ++ [Noticed (Alert ("Erro ao verificar: " ++ message e))])%list
  /\ world_after o = match a with Rejected _ => w3 | Fulfilled _ => w4 end
  /\ state_after o = setVerifying false st
  /\ Called (OrdersCreate (order_payload u p)) ∈ trace again.
Proof.
  intros Hpd Hp Hu Hs Hsucc Hc Hce Hq Hw Hfail Hs' Hsucc' o again.
  assert (Hrun : trace o
                 = (firstn (match a with Rejected _ => 3 | Fulfilled _ => 4 end)
                           (saga_calls pd u p)
                    ++ [Noticed (Alert ("Erro ao verificar: " ++ message e))])%list
                 /\ world_after o = match a with Rejected _ => w3 | Fulfilled _ => w4 end
                 /\ state_after o = setVerifying false st).
  { subst o. unfold confirm, confirmPayment. rewrite Hpd, Hp, Hu. cbn.
    rewrite Hs. cbn. rewrite Hsucc. cbn. rewrite Hc. cbn. cbn in Hce.
    destruct (truthy (error created) || negb (bool_decide (is_Some (data created))));
      [discriminate |].
    cbn. rewrite Hq. destruct Hfail as [-> | [-> ->]]; cbn.
    - repeat split.
    - rewrite Hw. cbn. repeat split. }
  destruct Hrun as (Ht & Hwo & Hst). split; [exact Ht |]. split; [exact Hwo |].
  split; [exact Hst |].
  subst again. rewrite Hst. unfold confirm, confirmPayment. cbn.
  rewrite Hpd, Hp, Hu. cbn. rewrite Hs'. cbn. rewrite Hsucc'. cbn.
  apply list_elem_of_In. right. left. reflexivity.
Qed.

(** X21. How a confirmation reads the poll.  A rejected poll is reported
    as "Erro ao verificar" with the message of the rejection.  An answer
    whose [success] is false counts as not yet paid whatever status it
    carries, COMPLETED included, and an answer without data is reported
    with the status "undefined".  In all three cases the poll is the only
    call. *)
Theorem confirm_reads_poll st user pd p u w a w1 :
  paymentData st = Some pd -> product st = Some p -> user = Some u ->
  serve _ (GetPaymentStatus (pd_id pd)) w = (a, w1) ->
  match a with
  | Rejected _ => True
  | Fulfilled res => success res = false \/ status_data res = None
  end ->
  let o := confirm serve browse st user w in
  trace o
  = [Called (GetPaymentStatus (pd_id pd));
     Noticed (Alert match a with
                    | Rejected e => "Erro ao verificar: " ++ message e
                    | Fulfilled res =>
                        "Pagamento ainda não confirmado. Status: "
                        ++ match status_data res with
                           | Some d => status d
                           | None => "undefined"
                           end
                    end)]
  /\ world_after o = w1.
Proof.
  intros Hpd Hp Hu Hs Ha o. subst o. unfold confirm, confirmPayment.
  rewrite Hpd, Hp, Hu. cbn. rewrite Hs. cbn.
  destruct a as [res | e]; cbn; [| split; reflexivity].
  assert (Hno : is_success_status res = false).
  { unfold is_success_status, status_is.
    destruct Ha as [-> | ->]; [reflexivity | apply andb_false_r]. }
  rewrite Hno. cbn. split; reflexivity.
Qed.
End Saga.

(** Alice confirms while the store accepts the order and then goes
    offline. *)
Lemma confirm_partial_failure_witness :
  trace (confirm (scripted_serve stock_write_fails) (scripted_browse true)
           (payment_page 1 "payA") (Some alice) 0%nat)
  = [Called (GetPaymentStatus "payA");
     Called (OrdersCreate (order_payload alice (sample_product 1)));
     Called (ProductsUpdateStock "p1" 0);
     Noticed (Alert "Erro ao verificar: offline")].
Proof.
  refine (proj1
    (confirm_partial_failure (scripted_serve stock_write_fails) (scripted_browse true)
       (payment_page 1 "payA") (Some alice)
       {| pd_id := "payA"; qrcodeUrl := "qr.png"; copyPaste := None |}
       (sample_product 1) alice 0%nat
       {| success := true; status_data := Some {| status := "COMPLETED" |} |} 1%nat
       {| data := Some (sample_order paid); error := None |} 2%nat
       (Rejected {| message := "offline" |}) 3%nat
       (Rejected {| message := "offline" |}) 4%nat
       {| message := "offline" |} 0%nat
       {| success := true; status_data := Some {| status := "COMPLETED" |} |} 1%nat
       eq_refl eq_refl eq_refl eq_refl eq_refl eq_refl eq_refl eq_refl eq_refl
       _ eq_refl eq_refl)).
  left. reflexivity.
Defined.

(** Alice confirms while the gateway cannot be reached. *)
Lemma confirm_reads_poll_witness :
  trace (confirm (scripted_serve gateway_down) (scripted_browse true)
           (payment_page 1 "payA") (Some alice) 0%nat)
  = [Called (GetPaymentStatus "payA");
     Noticed (Alert "Erro ao verificar: timeout")].
Proof.
  exact (proj1
    (confirm_reads_poll (scripted_serve gateway_down) (scripted_browse true)
       (payment_page 1 "payA") (Some alice)
       {| pd_id := "payA"; qrcodeUrl := "qr.png"; copyPaste := None |}
       (sample_product 1) alice 0%nat (Rejected {| message := "timeout" |}) 1%nat
       eq_refl eq_refl eq_refl eq_refl I)).
Defined.

(** * More on the direct chat *)

(** X22. Submitting in a direct chat does nothing for a blank text or
    without a user.  Otherwise the log is the previous log followed by the
    optimistic copy, the input is cleared and [sending] is off at the end
    however the write settles, and the handler never rejects: after a failed
    write the typed text is gone from the input while its copy stays in the
    log.  [onMessageSent] is called only when the component was given one
    and the write was fulfilled; a rejection is logged to the console. *)
Theorem direct_send_outcome
    {W : Type} (serve : forall X, Service X -> W -> Settled X * W)
    (browse : forall X, Browser X -> W -> X * W)
    buyer u onMessageSent st w id w1 createdAt w2 a w3 :
  browse _ MathRandomToString w = (id, w1) ->
  browse _ DateNowISO w1 = (createdAt, w2) ->
  serve _ (DirectChatSendMessage (user_id u) (user_id buyer) (ds_newMessage st)) w2
    = (a, w3) ->
  let o := run serve browse
             (DirectChatModal.handleSend buyer (Some u) onMessageSent st) st w in
  let idle := run serve browse
                (DirectChatModal.handleSend buyer None onMessageSent st) st w in
  trace idle = [Noticed PreventDefault] /\ state_after idle = st
  /\ result o = Fulfilled tt
  /\ if trims_to_empty (ds_newMessage st)
     then trace o = [Noticed PreventDefault] /\ state_after o = st
     else
       ds_messages (state_after o)
       = (ds_messages st
          ++ [DirectChatModal.optimisticMsg u buyer id (ds_newMessage st)
                createdAt])%list
       /\ ds_newMessage (state_after o) = ""
       /\ ds_sending (state_after o) = false
       /\ (Noticed OnMessageSent ∈ trace o
           <-> onMessageSent = true /\ a = Fulfilled tt)
       /\ (forall e, a = Rejected e -> Noticed (ConsoleError e) ∈ trace o).
Proof.
  intros Hid Hnow Hs o idle. subst o idle. unfold DirectChatModal.handleSend.
  split; [reflexivity |]. split; [reflexivity |].
  destruct (trims_to_empty (ds_newMessage st)); cbn.
  { repeat split. }
  rewrite Hid. cbn. rewrite Hnow. cbn. rewrite Hs. cbn.
  destruct a as [[] | e]; [destruct onMessageSent |]; cbn;
    (split; [reflexivity |]); (split; [reflexivity |]); (split; [reflexivity |]);
    (split; [reflexivity |]).
  - split; [| intros; discriminate].
    rewrite list_elem_of_In. cbn. tauto.
  - split; [| intros; discriminate].
    rewrite list_elem_of_In. cbn. split.
    + intros H. repeat (destruct H as [H | H]; [discriminate H |]). destruct H.
    + intros [H _]. discriminate H.
  - split.
    + rewrite list_elem_of_In. cbn. split.
      * intros H. repeat (destruct H as [H | H]; [discriminate H |]). destruct H.
      * intros [_ H]. discriminate H.
    + intros e0 [= <-]. apply list_elem_of_In. cbn. tauto.
Qed.

(** Alice sends "oi" to Sol while the store is offline: the input is
    cleared. *)
Lemma direct_send_outcome_witness :
  ds_newMessage (state_after
    (run (scripted_serve write_fails) (scripted_browse true)
       (DirectChatModal.handleSend sol (Some alice) true (typing "oi"))
       (typing "oi") 0%nat))
  = "".
Proof.
  pose proof (direct_send_outcome (scripted_serve write_fails) (scripted_browse true)
                sol alice true (typing "oi") 0%nat _ 0%nat _ 0%nat _ 1%nat
                eq_refl eq_refl eq_refl) as H.
  exact (proj1 (proj2 (proj2 (proj2 (proj2 H))))).
Defined.
